(** * cacaluploader: CampusOffice calendar to CalDAV uploader

    A shallow embedding of [python/cacaluploader.py].  The script logs in to
    CampusOffice, downloads the iCalendar export of a time period, and
    replaces the events of that period in a CalDAV calendar.

    Layout of the development:
    - Python values the script handles: exceptions and their classes,
      [datetime], HTTP responses, iCalendar components, CalDAV objects;
    - the object state of [CampusCalendarUploader] with its constructor and
      the two property setters (pure state passing);
    - a small monad [M] for the methods that talk to the outside world: the
      world is a record of oracles that answer each call from the history of
      calls made so far, and every call is written to a trace;
    - the methods [upload], [_retrieve_source_calendar],
      [_retrieve_upload_calendar], [_upload_events] and the [__main__] block;
    - the theorems. *)

From stdpp Require Import gmap strings list fin_maps pretty.
From Stdlib Require Import ZArith Lia.

Set Warnings "-register-all".

Local Open Scope Z_scope.

(** ** Exceptions *)

(** The exception classes the script raises, catches or lets through.  The
    [caldav_*] classes are [caldav.error.*], [requests_*] are the classes of
    the requests package, [ConfigParser_*] those of the Python 2 module. *)
Inductive exc_class : Type :=
  | Exception
  | SystemExit
  | ValueError
  | TypeError
  | LookupError
  | IndexError
  | KeyError
  | IOError
  | requests_RequestException
  | requests_HTTPError
  | requests_ConnectionError
  | requests_Timeout
  | CampusOfficeAuthorizationError
  | ConfigParser_Error
  | ConfigParser_NoSectionError
  | ConfigParser_NoOptionError
  | ConfigParser_ParsingError
  | caldav_AuthorizationError
  | caldav_NotFoundError
  | caldav_ReportError
  | caldav_DeleteError
  | caldav_PutError.

Global Instance exc_class_eq_dec : EqDecision exc_class.
Proof. solve_decision. Defined.

(** The base class; [None] for the roots.  The script declares
    [class CampusOfficeAuthorizationError(Exception)]; for the library
    classes the intermediate [StandardError] and [EnvironmentError] of
    Python 2 are left out, as no clause of the script names them. *)
Definition base (c : exc_class) : option exc_class :=
  match c with
  | Exception | SystemExit => None
  | LookupError | IOError | ValueError | TypeError => Some Exception
  | IndexError | KeyError => Some LookupError
  | requests_RequestException => Some IOError
  | requests_HTTPError | requests_ConnectionError | requests_Timeout =>
      Some requests_RequestException
  | CampusOfficeAuthorizationError => Some Exception
  | ConfigParser_Error => Some Exception
  | ConfigParser_NoSectionError | ConfigParser_NoOptionError
  | ConfigParser_ParsingError => Some ConfigParser_Error
  | caldav_AuthorizationError | caldav_NotFoundError | caldav_ReportError
  | caldav_DeleteError | caldav_PutError => Some Exception
  end.

(** [issubclass c d], by walking up the chain of base classes (the chain is
    at most three steps long). *)
Fixpoint issubclass_fuel (n : nat) (c d : exc_class) : bool :=
  bool_decide (c = d) ||
  match n with
  | O => false
  | S n' => match base c with
            | Some b => issubclass_fuel n' b d
            | None => false
            end
  end.

Definition issubclass : exc_class → exc_class → bool := issubclass_fuel 4.

(** A raised exception: its class and the text [str(e)] gives. *)
Record exn : Type := Exn { exn_class : exc_class; exn_str : string }.

Global Instance exn_eq_dec : EqDecision exn.
Proof. solve_decision. Defined.

Definition isinstance_exn (e : exn) (c : exc_class) : bool :=
  issubclass (exn_class e) c.

(** [CampusOfficeAuthorizationError()]; its [__str__] is fixed. *)
Definition CampusOfficeAuthorizationError_ : exn :=
  Exn CampusOfficeAuthorizationError
      "CampusOffice login failed: Maybe invalid username/password?".

(** The outcome of a Python call: a value or a raised exception. *)
Inductive result (A : Type) : Type :=
  | Ok (a : A)
  | Raise (e : exn).
Arguments Ok {A} a.
Arguments Raise {A} e.

Definition result_bind {A B} (r : result A) (f : A → result B) : result B :=
  match r with
  | Ok a => f a
  | Raise e => Raise e
  end.

(** ** Dates *)

(** A naive [datetime], as the number of microseconds since an arbitrary
    fixed instant; [<] and [>] on datetimes are those of [Z].  The bounds of
    the datetime type (years 1 to 9999) are not modelled. *)
Definition datetime : Type := Z.

(** [timedelta(weeks=w)] *)
Definition timedelta_weeks (w : Z) : Z := w * 7 * 24 * 3600 * 1000000.

(** ** Strings *)

(** [needle in hay] on Python strings: [needle] starts at some position of
    [hay]. *)
Fixpoint str_contains (needle hay : string) : bool :=
  String.prefix needle hay ||
  match hay with
  | EmptyString => false
  | String _ hay' => str_contains needle hay'
  end.

(** ** HTTP responses (requests) *)

Module requests.

(** The parts of a [requests.Response] the script reads.  [headers] is keyed
    by the lower-case header name (the dictionary of the library ignores
    case); [text_utf8] is what [text] gives once [encoding] is set to
    ['utf-8']; [history] holds the redirect responses that led to this one. *)
Inductive Response : Type :=
  mkResponse (status_code : Z) (headers : gmap string string)
             (history : list Response) (text_utf8 : string).

Definition status_code (r : Response) : Z :=
  match r with mkResponse c _ _ _ => c end.
Definition headers (r : Response) : gmap string string :=
  match r with mkResponse _ h _ _ => h end.
Definition history (r : Response) : list Response :=
  match r with mkResponse _ _ h _ => h end.
Definition text_utf8 (r : Response) : string :=
  match r with mkResponse _ _ _ t => t end.

(** [Response.raise_for_status()]: an [HTTPError] for the 4xx and 5xx codes. *)
Definition raise_for_status (r : Response) : result unit :=
  if (400 <=? status_code r) && (status_code r <? 600)
  then Raise (Exn requests_HTTPError ("HTTP Error " +:+ pretty (status_code r)))
  else Ok tt.

End requests.

(** ** iCalendar components (icalendar) *)

Module icalendar.

(** The component classes of the package; none of them derives from another
    one but from [Component]. *)
Inductive cls : Type :=
  | Component_
  | Calendar
  | Event
  | Todo
  | Journal
  | FreeBusy
  | Timezone
  | TimezoneStandard
  | TimezoneDaylight
  | Alarm.

Global Instance cls_eq_dec : EqDecision cls.
Proof. solve_decision. Defined.

(** A parsed component: its class, its properties and its subcomponents. *)
Inductive Component : Type :=
  mkComponent (class : cls) (properties : list (string * string))
              (subcomponents : list Component).

Definition class (c : Component) : cls :=
  match c with mkComponent k _ _ => k end.
Definition subcomponents (c : Component) : list Component :=
  match c with mkComponent _ _ s => s end.

(** [isinstance(x, icalendar.Event)] *)
Definition isinstance_Event (x : Component) : bool :=
  bool_decide (class x = Event).

(** [cal = icalendar.Calendar(); cal.add_component(ev)] *)
Definition Calendar_with (ev : Component) : Component :=
  mkComponent Calendar [] [ev].

End icalendar.

(** ** CalDAV objects (caldav) *)

Module caldav.

(** A [caldav.Calendar]: [url] is [str(c.url)]. *)
Record Calendar : Type := mkCalendar { url : string; name : string }.

(** A [caldav.Event] of the destination calendar. *)
Record Event : Type := mkEvent { event_url : string; data : string }.

End caldav.

(** ** The outside world *)

Inductive level : Type := INFO | ERROR.

(** The calls the script makes to the outside. *)
Inductive call : Type :=
  | config_read (filename : string)
  | session_get (url : string)
  | session_post (url : string) (data : gmap string string)
  | caldav_Principal (url username password : string)
  | principal_calendars (url username password : string)
  | calendar_date_search (cal : caldav.Calendar) (start end_ : option datetime)
  | event_delete (ev : caldav.Event)
  | calendar_add_event (cal : caldav.Calendar) (ical : string)
  | logging (lvl : level) (msg : string).

(** What a call gave back. *)
Inductive reply : Type :=
  | Raised (e : exn)
  | Returned
  | RConfig (c : gmap string (gmap string string))
  | RResponse (r : requests.Response)
  | RCalendars (cs : list caldav.Calendar)
  | REvents (evs : list caldav.Event).

(** One line of the transcript of a run. *)
Record entry : Type := Entry { e_call : call; e_reply : reply }.

Abbreviation transcript := (list entry).

(** The world answers every call from the transcript so far.  The pure
    library functions ([format], [strptime], the iCalendar parser and
    serialiser) and the clock are part of it as well. *)
Record World : Type := mkWorld {
  datetime_today : datetime;
  (** [format(value, '%d.%m.%Y')] for the value of a bound *)
  format_dmY : option datetime → result string;
  (** [datetime.strptime(s, '%Y-%m-%d')] *)
  strptime_Ymd : string → result datetime;
  (** [icalendar.Calendar.from_ical] *)
  from_ical : string → result icalendar.Component;
  (** [Component.to_ical] *)
  to_ical : icalendar.Component → string;
  (** [ConfigParser.read] followed by the sections it has loaded *)
  ConfigParser_read : transcript → string → result (gmap string (gmap string string));
  (** [session.get] and [session.post] *)
  requests_get : transcript → string → result requests.Response;
  requests_post : transcript → string → gmap string string → result requests.Response;
  (** [caldav.Principal(client)] and [principal.calendars()] *)
  Principal_init : transcript → string → string → string → result unit;
  Principal_calendars : transcript → string → string → string → result (list caldav.Calendar);
  (** [Calendar.date_search], [Event.delete], [Calendar.add_event] *)
  Calendar_date_search :
    transcript → caldav.Calendar → option datetime → option datetime →
    result (list caldav.Event);
  Event_delete : transcript → caldav.Event → result unit;
  Calendar_add_event : transcript → caldav.Calendar → string → result unit
}.

(** ** The monad of the script *)

(** A computation reads the world and the transcript so far, and gives its
    outcome with the lines it adds to the transcript. *)
Definition M (A : Type) : Type := World → transcript → result A * transcript.

Definition ret {A} (a : A) : M A := λ _ _, (Ok a, []).

Definition raise {A} (e : exn) : M A := λ _ _, (Raise e, []).

Definition bind {A B} (m : M A) (f : A → M B) : M B :=
  λ w tr,
    match m w tr with
    | (Ok a, out) =>
        match f a w (tr ++ out) with
        | (r, out') => (r, out ++ out')
        end
    | (Raise e, out) => (Raise e, out)
    end.

(** The monad operations as instances of the classes of the library, for the
    notations [x ← m; f] and [m;; f]. *)
Global Instance M_ret : MRet M := @ret.
Global Instance M_bind : MBind M := λ A B f m, bind m f.

(** A pure call that may raise. *)
Definition lift {A} (r : World → result A) : M A := λ w _, (r w, []).

(** A call to the outside: ask the world, write the line. *)
Definition perform {A} (c : call) (ask : World → transcript → result A)
    (inj : A → reply) : M A :=
  λ w tr,
    match ask w tr with
    | Ok a => (Ok a, [Entry c (inj a)])
    | Raise e => (Raise e, [Entry c (Raised e)])
    end.

Definition log_info (msg : string) : M unit :=
  λ _ _, (Ok tt, [Entry (logging INFO msg) Returned]).

Definition log_error (msg : string) : M unit :=
  λ _ _, (Ok tt, [Entry (logging ERROR msg) Returned]).

(** [for i, x in enumerate(xs): body], counting from [i]. *)
Fixpoint for_enumerate {A} (i : nat) (xs : list A) (body : nat → A → M unit) : M unit :=
  match xs with
  | [] => ret tt
  | x :: xs' => bind (body i x) (λ _, for_enumerate (S i) xs' body)
  end.

(** [try: body except classes as e: handler ...]: the first clause one of
    whose classes the exception is an instance of handles it; with no such
    clause the exception goes on. *)
Fixpoint find_handler {A} (e : exn) (hs : list (list exc_class * (exn → M A)))
    : option (exn → M A) :=
  match hs with
  | [] => None
  | (classes, h) :: hs' =>
      if existsb (isinstance_exn e) classes then Some h else find_handler e hs'
  end.

Definition try_except {A} (body : M A) (hs : list (list exc_class * (exn → M A))) : M A :=
  λ w tr,
    match body w tr with
    | (Ok a, out) => (Ok a, out)
    | (Raise e, out) =>
        match find_handler e hs with
        | Some h =>
            match h e w (tr ++ out) with
            | (r, out') => (r, out ++ out')
            end
        | None => (Raise e, out)
        end
    end.

(** ** The uploader object *)

Module CampusCalendarUploader.

(** The instance attributes.  The two bounds are Python attributes that the
    setters test against [None]. *)
Record t : Type := Self {
  _start_time : option datetime;
  _end_time : option datetime;
  matriculation_number : string;
  campus_password : string;
  calendar_url : string;
  calendar_user : string;
  calendar_pass : string
}.

Definition with_start (self : t) (v : option datetime) : t :=
  Self v (_end_time self) (matriculation_number self) (campus_password self)
       (calendar_url self) (calendar_user self) (calendar_pass self).

Definition with_end (self : t) (v : option datetime) : t :=
  Self (_start_time self) v (matriculation_number self) (campus_password self)
       (calendar_url self) (calendar_user self) (calendar_pass self).

(** The class attributes with the CampusOffice urls. *)
Definition _campus_base_url : string := "https://www.campus.rwth-aachen.de/office/".
Definition _campus_login_url : string := "views/campus/redirect.asp".
Definition _campus_logout_url : string := "system/login/logoff.asp".

(** The property getters. *)
Definition start_time (self : t) : option datetime := _start_time self.
Definition end_time (self : t) : option datetime := _end_time self.

(** [@start_time.setter].  An exception leaves the object as it was: the
    only [raise] comes before any assignment. *)
Definition start_time_setter (self : t) (start : datetime) : result t :=
  result_bind
    (match end_time self with
     | None => Ok (with_end self (Some start))
     | Some e =>
         if e <? start
         then Raise (Exn ValueError "Start of time period is after end")
         else Ok self
     end)
    (λ self, Ok (with_start self (Some start))).

(** [@end_time.setter] *)
Definition end_time_setter (self : t) (end_ : datetime) : result t :=
  result_bind
    (match start_time self with
     | None => Ok (with_start self (Some end_))
     | Some s =>
         if s >? end_
         then Raise (Exn ValueError "End of time period is before start")
         else Ok self
     end)
    (λ self, Ok (with_end self (Some end_))).

(** [__init__]; [today] is the value of [datetime.today()]. *)
Definition __init__ (today : datetime)
    (mat_number campus_pass cal_url cal_user cal_pass : string)
    (start_time end_time : option datetime) : result t :=
  let self :=
    Self (Some (today + timedelta_weeks (-1))) (Some (today + timedelta_weeks 27))
         mat_number campus_pass cal_url cal_user cal_pass in
  match start_time, end_time with
  | Some s, Some e =>
      result_bind (start_time_setter self s) (λ self, end_time_setter self e)
  | _, _ =>
      if negb (bool_decide (bool_decide (start_time = None)
                            = bool_decide (end_time = None)))
      then Raise (Exn ValueError
                    "Can not upload calendar with only one time period boundary")
      else Ok self
  end.

(** The invariant of the time period: both bounds are set and ordered. *)
Definition period_ok (self : t) : Prop :=
  match start_time self, end_time self with
  | Some s, Some e => s <= e
  | _, _ => False
  end.

(** The objects a client can hold: built by the constructor, then changed by
    assignments to [start_time] and [end_time] that did not raise. *)
Inductive constructed : t → Prop :=
  | constructed_init today mat campus_pass cal_url cal_user cal_pass s e self :
      __init__ today mat campus_pass cal_url cal_user cal_pass s e = Ok self →
      constructed self
  | constructed_start self v self' :
      constructed self → start_time_setter self v = Ok self' → constructed self'
  | constructed_end self v self' :
      constructed self → end_time_setter self v = Ok self' → constructed self'.

(** The export url: [_campus_cal_url.format(start=..., end=...)]. *)
Definition _campus_cal_url (start end_ : string) : string :=
  "views/calendar/iCalExport.asp?startdt=" +:+ start +:+ "&enddt=" +:+ end_ +:+ " 23:59:59".

(** [_retrieve_source_calendar] *)
Definition _retrieve_source_calendar (self : t) : M icalendar.Component :=
  (* Fetch base page for session cookies *)
  log_info "Fetch base page for session cookie";;
  req ← perform (session_get _campus_base_url)
          (λ w tr, requests_get w tr _campus_base_url) RResponse;
  lift (λ _, requests.raise_for_status req);;
  (* Log in and validating session cookies *)
  log_info "Validate session by logging in";;
  let values : gmap string string :=
    <["u" := matriculation_number self]> (<["p" := campus_password self]> ∅) in
  req ← perform (session_post (_campus_base_url +:+ _campus_login_url) values)
          (λ w tr, requests_post w tr (_campus_base_url +:+ _campus_login_url) values)
          RResponse;
  lift (λ _, requests.raise_for_status req);;
  first ← lift (λ _, match requests.history req !! 0%nat with
                     | Some r => Ok r
                     | None => Raise (Exn IndexError "list index out of range")
                     end);
  location ← lift (λ _, match requests.headers first !! "location" with
                        | Some l => Ok l
                        | None => Raise (Exn KeyError "'location'")
                        end);
  (if str_contains "loginfailed" location
   then raise CampusOfficeAuthorizationError_
   else ret tt);;
  (* Retrieve calendar *)
  log_info "Retrieve calendar";;
  start ← lift (λ w, format_dmY w (start_time self));
  end_ ← lift (λ w, format_dmY w (end_time self));
  req ← perform (session_get (_campus_base_url +:+ _campus_cal_url start end_))
          (λ w tr, requests_get w tr (_campus_base_url +:+ _campus_cal_url start end_))
          RResponse;
  lift (λ _, requests.raise_for_status req);;
  (* Log out *)
  log_info "Invalidating session by logging out";;
  perform (session_get (_campus_base_url +:+ _campus_logout_url))
    (λ w tr, requests_get w tr (_campus_base_url +:+ _campus_logout_url)) RResponse;;
  (* Parse calendar with forced utf-8 *)
  log_info "Parse calendar";;
  lift (λ w, from_ical w (requests.text_utf8 req)).

(** The loop of [_retrieve_upload_calendar]: the first calendar whose url is
    the configured one. *)
Fixpoint search_calendar (target : string) (cs : list caldav.Calendar)
    : option caldav.Calendar :=
  match cs with
  | [] => None
  | c :: cs' =>
      if bool_decide (caldav.url c = target) then Some c
      else search_calendar target cs'
  end.

(** [_retrieve_upload_calendar] *)
Definition _retrieve_upload_calendar (self : t) : M caldav.Calendar :=
  (* Connect to destination *)
  perform (caldav_Principal (calendar_url self) (calendar_user self) (calendar_pass self))
    (λ w tr, Principal_init w tr (calendar_url self) (calendar_user self)
               (calendar_pass self))
    (λ _, Returned);;
  (* Search for given calendar *)
  log_info "Search for caldav calendar";;
  cs ← perform (principal_calendars (calendar_url self) (calendar_user self)
                  (calendar_pass self))
         (λ w tr, Principal_calendars w tr (calendar_url self) (calendar_user self)
                    (calendar_pass self))
         RCalendars;
  match search_calendar (calendar_url self) cs with
  | Some c => ret c
  | None =>
      raise (Exn caldav_NotFoundError "Could not find calendar with given url")
  end.

(** ['... {index}/{num}'.format(index=i+1, num=n)] *)
Definition index_of (what : string) (i n : nat) : string :=
  what +:+ pretty (S i) +:+ "/" +:+ pretty n.

(** [_upload_events] *)
Definition _upload_events (self : t) (upload_cal : caldav.Calendar)
    (events : list icalendar.Component) : M unit :=
  (* Remove all upcoming events *)
  log_info "Delete all existing events in given time period";;
  old_events ← perform
      (calendar_date_search upload_cal (start_time self) (end_time self))
      (λ w tr, Calendar_date_search w tr upload_cal (start_time self) (end_time self))
      REvents;
  let n := length old_events in
  for_enumerate 0 old_events (λ i ev,
    log_info (index_of "Delete event " i n);;
    perform (event_delete ev) (λ w tr, Event_delete w tr ev) (λ _, Returned));;
  (* Upload all events *)
  log_info "Upload all events";;
  let n := length events in
  for_enumerate 0 events (λ i ev,
    log_info (index_of "Upload event " i n);;
    (* Get iCal representation of event *)
    ical ← lift (λ w, Ok (to_ical w (icalendar.Calendar_with ev)));
    (* Add new event *)
    perform (calendar_add_event upload_cal ical)
      (λ w tr, Calendar_add_event w tr upload_cal ical) (λ _, Returned)).

(** The bodies of the two loops of [_upload_events], by name. *)
Definition delete_body (n : nat) (i : nat) (ev : caldav.Event) : M unit :=
  log_info (index_of "Delete event " i n);;
  perform (event_delete ev) (λ w tr, Event_delete w tr ev) (λ _, Returned).

Definition insert_body (upload_cal : caldav.Calendar) (n : nat) (i : nat)
    (ev : icalendar.Component) : M unit :=
  log_info (index_of "Upload event " i n);;
  ical ← lift (λ w, Ok (to_ical w (icalendar.Calendar_with ev)));
  perform (calendar_add_event upload_cal ical)
    (λ w tr, Calendar_add_event w tr upload_cal ical) (λ _, Returned).

(** The events of the source calendar:
    [filter(lambda x: isinstance(x, icalendar.Event), source_cal.subcomponents)]. *)
Definition source_events (source_cal : icalendar.Component) : list icalendar.Component :=
  filter (λ x, icalendar.isinstance_Event x = true) (icalendar.subcomponents source_cal).

(** [upload] *)
Definition upload (self : t) : M unit :=
  (* Retrieve current calendar *)
  source_cal ← _retrieve_source_calendar self;
  (* Remove all components which are no events *)
  let source_events := source_events source_cal in
  (* Retrieve upload calendar *)
  upload_cal ← _retrieve_upload_calendar self;
  (* Upload all events to calendar *)
  _upload_events self upload_cal source_events.
End CampusCalendarUploader.

(** ** The configuration file (ConfigParser) *)

Module ConfigParser.

(** [config.get(section, option)] on the sections a file has given: a
    [NoSectionError] without the section, a [NoOptionError] without the
    option.  Defaults and interpolation are not modelled. *)
Definition get (config : gmap string (gmap string string)) (section option : string)
    : result string :=
  match config !! section with
  | None => Raise (Exn ConfigParser_NoSectionError ("No section: '" +:+ section +:+ "'"))
  | Some options =>
      match options !! option with
      | None =>
          Raise (Exn ConfigParser_NoOptionError
                   ("No option '" +:+ option +:+ "' in section: '" +:+ section +:+ "'"))
      | Some v => Ok v
      end
  end.

(** [config.has_section(section)] *)
Definition has_section (config : gmap string (gmap string string)) (section : string)
    : bool :=
  bool_decide (is_Some (config !! section)).

End ConfigParser.

(** ** The script *)

(** The [except] clauses of the script, in their order. *)
Definition handlers : list (list exc_class * (exn → M unit)) :=
  [ ([ConfigParser_NoOptionError],
     λ e, log_error ("Could not load config from file: " +:+ exn_str e));
    ([requests_RequestException; CampusOfficeAuthorizationError],
     λ e, log_error ("Could not retrieve CampusOffice calendar: " +:+ exn_str e));
    ([caldav_AuthorizationError],
     λ _, log_error "Could not access CalDAV calendar: Authorization failed");
    ([caldav_NotFoundError],
     λ _, log_error "Could not find CalDAV calendar");
    ([caldav_ReportError],
     λ _, log_error "Could not retrieve list of already existing events in CalDAV calendar");
    ([caldav_DeleteError],
     λ _, log_error "Could not remove already existing event in CalDAV calendar");
    ([caldav_PutError],
     λ _, log_error "Could not upload new event to CalDAV calendar");
    ([ValueError],
     λ e, log_error ("Could not parse time period: " +:+ exn_str e)) ].

(** The body of the [try] statement, for the configuration file named on
    the command line. *)
Definition script (config_file : string) : M unit :=
  (* Parse config file *)
  config ← perform (config_read config_file)
             (λ w tr, ConfigParser_read w tr config_file) RConfig;
  mat_number ← lift (λ _, ConfigParser.get config "CampusOffice" "mat");
  campus_pass ← lift (λ _, ConfigParser.get config "CampusOffice" "pass");
  cal_url ← lift (λ _, ConfigParser.get config "CalDAV" "url");
  cal_user ← lift (λ _, ConfigParser.get config "CalDAV" "user");
  cal_pass ← lift (λ _, ConfigParser.get config "CalDAV" "pass");
  period ←
    (if ConfigParser.has_section config "Period"
     then
       s ← lift (λ _, ConfigParser.get config "Period" "start");
       start_time ← lift (λ w, strptime_Ymd w s);
       s ← lift (λ _, ConfigParser.get config "Period" "end");
       end_time ← lift (λ w, strptime_Ymd w s);
       mret (Some start_time, Some end_time)
     else mret (None, None));
  (* Start upload *)
  uploader ← lift (λ w,
    CampusCalendarUploader.__init__ (datetime_today w)
      mat_number campus_pass cal_url cal_user cal_pass period.1 period.2);
  CampusCalendarUploader.upload uploader.

(** The [__main__] block, for the command line [argv]: with anything but one
    argument the usage is logged and [exit()] leaves the script. *)
Definition main (argv : list string) : M unit :=
  match argv with
  | [_; config_file] => try_except (script config_file) handlers
  | _ =>
      log_error "Error: Incorrect use!";;
      log_info " cacaluploader.py <config-file>";;
      raise (Exn SystemExit "")
  end.


(** The classes the [except] clauses of the script name. *)
Definition caught_classes : list exc_class :=
  [ ConfigParser_NoOptionError; requests_RequestException;
    CampusOfficeAuthorizationError; caldav_AuthorizationError; caldav_NotFoundError;
    caldav_ReportError; caldav_DeleteError; caldav_PutError; ValueError ].

(** ** Sample worlds *)

Module Sample.

Definition listing : icalendar.Component :=
  icalendar.mkComponent icalendar.Calendar []
    [ icalendar.mkComponent icalendar.Timezone [("TZID", "Europe/Berlin")] [];
      icalendar.mkComponent icalendar.Event [("SUMMARY", "Analysis")] [];
      icalendar.mkComponent icalendar.Todo [("SUMMARY", "Sheet 3")] [];
      icalendar.mkComponent icalendar.Event [("SUMMARY", "Algebra")] [] ].

Definition cal41 : caldav.Calendar := caldav.mkCalendar "https://x/cal/41" "private".
Definition cal42 : caldav.Calendar := caldav.mkCalendar "https://x/cal/42" "uni".
Definition cal43 : caldav.Calendar := caldav.mkCalendar "https://x/cal/43" "work".

Definition old1 : caldav.Event := caldav.mkEvent "https://x/cal/42/a.ics" "a".
Definition old2 : caldav.Event := caldav.mkEvent "https://x/cal/42/b.ics" "b".

Definition config : gmap string (gmap string string) :=
  <["CampusOffice" := <["mat" := "123456"]> (<["pass" := "secret"]> ∅)]>
  (<["CalDAV" := <["url" := "https://x/cal/42"]>
                 (<["user" := "me"]> (<["pass" := "pw"]> ∅))]> ∅).

Definition page (location : string) : requests.Response :=
  requests.mkResponse 200 ∅
    [requests.mkResponse 302 (<["location" := location]> ∅) [] ""] "BEGIN:VCALENDAR".

(** The worlds of the samples differ in the configuration, in the answers
    to the HTTP requests, to the query and to the deletions; the dates are
    printed as numbers, the export always parses to [listing], and an event
    is serialised to its summary. *)
Definition world
    (config : gmap string (gmap string string))
    (get : string → result requests.Response)
    (post : result requests.Response)
    (search : result (list caldav.Event))
    (delete : caldav.Event → result unit) : World :=
  {| datetime_today := 0;
     format_dmY := λ d, match d with
                        | Some d => Ok (pretty d)
                        | None => Raise (Exn ValueError "Invalid conversion specification")
                        end;
     strptime_Ymd := λ _, Raise (Exn ValueError "time data does not match format");
     from_ical := λ _, Ok listing;
     to_ical := λ c, match icalendar.subcomponents c with
                     | [icalendar.mkComponent _ ((_, s) :: _) _] => s
                     | _ => ""
                     end;
     ConfigParser_read := λ _ _, Ok config;
     requests_get := λ _ url, get url;
     requests_post := λ _ _ _, post;
     Principal_init := λ _ _ _ _, Ok tt;
     Principal_calendars := λ _ _ _ _, Ok [cal41; cal42; cal43];
     Calendar_date_search := λ _ _ _ _, search;
     Event_delete := λ _ ev, delete ev;
     Calendar_add_event := λ _ _ _, Ok tt |}.

(** Everything works: the login redirects to the start page and the
    destination holds two events. *)
Definition fine : World :=
  world config (λ _, Ok (page "")) (Ok (page "main.asp"))
    (Ok [old1; old2]) (λ _, Ok tt).

(** The login redirects to the page of failed logins. *)
Definition login_refused : World :=
  world config (λ _, Ok (page "")) (Ok (page "login.asp?loginfailed=1"))
    (Ok [old1; old2]) (λ _, Ok tt).

(** The page of failed logins is broken: the redirect of the login ends in
    an internal error. *)
Definition error_page (location : string) : requests.Response :=
  requests.mkResponse 500 ∅
    [requests.mkResponse 302 (<["location" := location]> ∅) [] ""] "".

Definition login_refused_error : World :=
  world config (λ _, Ok (page "")) (Ok (error_page "login.asp?loginfailed=1"))
    (Ok [old1; old2]) (λ _, Ok tt).

(** The connection is lost when the script logs out. *)
Definition logout_down : World :=
  world config
    (λ url, if bool_decide (url = "https://www.campus.rwth-aachen.de/office/system/login/logoff.asp")
            then Raise (Exn requests_ConnectionError "Connection aborted")
            else Ok (page ""))
    (Ok (page "main.asp")) (Ok [old1; old2]) (λ _, Ok tt).

(** The server answers the logout with an internal error. *)
Definition logout_error : World :=
  world config
    (λ url, if bool_decide (url = "https://www.campus.rwth-aachen.de/office/system/login/logoff.asp")
            then Ok (requests.mkResponse 500 ∅ [] "")
            else Ok (page ""))
    (Ok (page "main.asp")) (Ok [old1; old2]) (λ _, Ok tt).

(** The destination refuses the query for the events of the period. *)
Definition query_down : World :=
  world config (λ _, Ok (page "")) (Ok (page "main.asp"))
    (Raise (Exn caldav_ReportError "REPORT failed")) (λ _, Ok tt).

(** The destination refuses to delete the second of its events. *)
Definition delete_down : World :=
  world config (λ _, Ok (page "")) (Ok (page "main.asp")) (Ok [old1; old2])
    (λ ev, if bool_decide (caldav.event_url ev = "https://x/cal/42/b.ics")
           then Raise (Exn caldav_DeleteError "DELETE failed")
           else Ok tt).

(** The configuration file is missing or empty: no section is loaded. *)
Definition no_sections : World :=
  world ∅ (λ _, Ok (page "")) (Ok (page "main.asp")) (Ok [old1; old2]) (λ _, Ok tt).

(** The landing page cannot be reached. *)
Definition landing_down : World :=
  world config
    (λ url, if bool_decide (url = "https://www.campus.rwth-aachen.de/office/")
            then Raise (Exn requests_ConnectionError "Connection refused")
            else Ok (page ""))
    (Ok (page "main.asp")) (Ok [old1; old2]) (λ _, Ok tt).

(** The login answers without a redirect. *)
Definition no_redirect : World :=
  world config (λ _, Ok (page "")) (Ok (requests.mkResponse 200 ∅ [] ""))
    (Ok [old1; old2]) (λ _, Ok tt).

(** The export times out. *)
Definition export_down : World :=
  world config
    (λ url, if String.prefix "https://www.campus.rwth-aachen.de/office/views/" url
            then Raise (Exn requests_Timeout "Read timed out")
            else Ok (page ""))
    (Ok (page "main.asp")) (Ok [old1; old2]) (λ _, Ok tt).

(** The destination refuses to add the second event of the listing. *)
Definition put_down : World :=
  {| datetime_today := 0;
     format_dmY := format_dmY fine;
     strptime_Ymd := strptime_Ymd fine;
     from_ical := from_ical fine;
     to_ical := to_ical fine;
     ConfigParser_read := ConfigParser_read fine;
     requests_get := requests_get fine;
     requests_post := requests_post fine;
     Principal_init := Principal_init fine;
     Principal_calendars := Principal_calendars fine;
     Calendar_date_search := Calendar_date_search fine;
     Event_delete := Event_delete fine;
     Calendar_add_event := λ _ _ ical,
       if bool_decide (ical = "Algebra")
       then Raise (Exn caldav_PutError "PUT failed")
       else Ok tt |}.



(** A configuration with a period; the world reads the two dates as the
    weeks 1 and 2, and anything else as no date. *)
Definition config_period : gmap string (gmap string string) :=
  <["Period" := <["start" := "1970-01-08"]> (<["end" := "1970-01-15"]> ∅)]> config.

Definition with_period (config : gmap string (gmap string string)) : World :=
  {| datetime_today := 0;
     format_dmY := format_dmY fine;
     strptime_Ymd := λ s,
       if bool_decide (s = "1970-01-08") then Ok (timedelta_weeks 1)
       else if bool_decide (s = "1970-01-15") then Ok (timedelta_weeks 2)
       else Raise (Exn ValueError "time data does not match format '%Y-%m-%d'");
     from_ical := from_ical fine;
     to_ical := to_ical fine;
     ConfigParser_read := λ _ _, Ok config;
     requests_get := requests_get fine;
     requests_post := requests_post fine;
     Principal_init := Principal_init fine;
     Principal_calendars := Principal_calendars fine;
     Calendar_date_search := Calendar_date_search fine;
     Event_delete := Event_delete fine;
     Calendar_add_event := Calendar_add_event fine |}.

(** A configuration whose period starts on the 31st of February. *)
Definition config_bad_date : gmap string (gmap string string) :=
  <["Period" := <["start" := "1970-02-31"]> (<["end" := "1970-01-15"]> ∅)]> config.

(** The object the script builds from [config] at day 0. *)
Definition uploader : CampusCalendarUploader.t :=
  CampusCalendarUploader.Self
    (Some (timedelta_weeks (-1))) (Some (timedelta_weeks 27))
    "123456" "secret" "https://x/cal/42" "me" "pw".

End Sample.

(** ** Reading a transcript *)

(** The lines of a transcript that change the destination calendar. *)
Definition is_deletion (x : entry) : bool :=
  match e_call x with
  | event_delete _ => true
  | _ => false
  end.

Definition is_insertion (x : entry) : bool :=
  match e_call x with
  | calendar_add_event _ _ => true
  | _ => false
  end.

Definition is_mutation (x : entry) : bool := is_deletion x || is_insertion x.

Definition is_log (x : entry) : bool :=
  match e_call x with
  | logging _ _ => true
  | _ => false
  end.

(** The deletions of a transcript, each with what it gave, in their order. *)
Definition deletions (out : transcript) : list (caldav.Event * reply) :=
  omap (λ x, match e_call x with
             | event_delete ev => Some (ev, e_reply x)
             | _ => None
             end) out.


(** The error lines of the log. *)
Definition is_error_line (x : entry) : bool :=
  match e_call x with
  | logging ERROR _ => true
  | _ => false
  end.

(** The run of a computation that comes after the lines [l]. *)
Definition after_lines {A : Type} (l : transcript) (p : result A * transcript)
    : result A * transcript :=
  (p.1, l ++ p.2).

(** [emits w P m]: in the world [w], whatever the transcript so far, all the
    lines [m] writes satisfy [P]. *)
Definition emits {A : Type} (w : World) (P : entry → Prop) (m : M A) : Prop :=
  ∀ tr, Forall P (m w tr).2.

(** A line that asks for the export or for the events of the destination
    asks for the period from [s] to [e]. *)
Definition uses_period (w : World) (s e : option datetime) (x : entry) : Prop :=
  match e_call x with
  | calendar_date_search _ s' e' => s' = s ∧ e' = e
  | session_get url =>
      url = CampusCalendarUploader._campus_base_url
      ∨ url = CampusCalendarUploader._campus_base_url
              +:+ CampusCalendarUploader._campus_logout_url
      ∨ ∃ a b, format_dmY w s = Ok a ∧ format_dmY w e = Ok b
               ∧ url = CampusCalendarUploader._campus_base_url
                       +:+ CampusCalendarUploader._campus_cal_url a b
  | _ => True
  end.

(** ** Merged lists *)

(** [interleaved xs ys l]: the list [l] is made of the elements of [xs] and
    those of [ys], each of the two in its own order. *)
Inductive interleaved {A : Type} : list A → list A → list A → Prop :=
  | interleaved_nil : interleaved [] [] []
  | interleaved_left x xs ys l :
      interleaved xs ys l → interleaved (x :: xs) ys (x :: l)
  | interleaved_right y xs ys l :
      interleaved xs ys l → interleaved xs (y :: ys) (y :: l).

(** ** More readings of a transcript *)

(** The insertions of a transcript: the calendar, the text sent and what the
    call gave, in their order. *)
Definition insertions (out : transcript) : list (caldav.Calendar * string * reply) :=
  omap (λ x, match e_call x with
             | calendar_add_event c ical => Some (c, ical, e_reply x)
             | _ => None
             end) out.

(** The HTTP requests of a transcript, in their order. *)
Definition http_calls (out : transcript) : list call :=
  omap (λ x, match e_call x with
             | session_get _ | session_post _ _ => Some (e_call x)
             | _ => None
             end) out.

(** The lines that go to the CalDAV server. *)
Definition is_caldav (x : entry) : bool :=
  match e_call x with
  | caldav_Principal _ _ _ | principal_calendars _ _ _
  | calendar_date_search _ _ _ | event_delete _ | calendar_add_event _ _ => true
  | _ => false
  end.

(** The lines that go to CampusOffice. *)
Definition is_http (x : entry) : bool :=
  match e_call x with
  | session_get _ | session_post _ _ => true
  | _ => false
  end.

(** A query or an insertion on the calendar [c], the query with the bounds
    of the object. *)
Definition on_calendar (self : CampusCalendarUploader.t) (c : caldav.Calendar) (x : entry) : Prop :=
  match e_call x with
  | calendar_date_search c' s e => c' = c ∧ s = CampusCalendarUploader.start_time self ∧ e = CampusCalendarUploader.end_time self
  | calendar_add_event c' _ => c' = c
  | _ => True
  end.

(** A query or an insertion on a calendar with the configured url, the query
    with the bounds of the object. *)
Definition on_configured_calendar (self : CampusCalendarUploader.t) (x : entry) : Prop :=
  match e_call x with
  | calendar_date_search c s e =>
      caldav.url c = CampusCalendarUploader.calendar_url self
      ∧ s = CampusCalendarUploader.start_time self
      ∧ e = CampusCalendarUploader.end_time self
  | calendar_add_event c _ => caldav.url c = CampusCalendarUploader.calendar_url self
  | _ => True
  end.

(** * Properties *)

(** ** The time period *)

Import CampusCalendarUploader.

Lemma timedelta_weeks_mono a b : a <= b → timedelta_weeks a <= timedelta_weeks b.
Proof. unfold timedelta_weeks. lia. Qed.

(** An assignment that does not raise leaves an ordered period, whatever
    the object was before. *)
Lemma start_time_setter_ok self v self' :
  start_time_setter self v = Ok self' → period_ok self'.
Proof.
  unfold start_time_setter, period_ok, start_time, end_time.
  destruct (_end_time self) as [e|] eqn:He; simpl.
  - destruct (e <? v) eqn:Hlt; simpl; intros [= <-]; simpl.
    rewrite He. apply Z.ltb_ge in Hlt. exact Hlt.
  - intros [= <-]; simpl. lia.
Qed.

Lemma end_time_setter_ok self v self' :
  end_time_setter self v = Ok self' → period_ok self'.
Proof.
  unfold end_time_setter, period_ok, start_time, end_time.
  destruct (_start_time self) as [s|] eqn:Hs; simpl.
  - destruct (s >? v) eqn:Hgt; simpl; intros [= <-]; simpl.
    rewrite Hs. rewrite Z.gtb_ltb in Hgt. apply Z.ltb_ge in Hgt. exact Hgt.
  - intros [= <-]; simpl. lia.
Qed.

Lemma init_ok today mat campus_pass cal_url cal_user cal_pass s e self :
  __init__ today mat campus_pass cal_url cal_user cal_pass s e = Ok self →
  period_ok self.
Proof.
  unfold __init__.
  destruct s as [s|], e as [e|]; simpl.
  - destruct (start_time_setter _ s) as [self1|] eqn:H1; simpl; [|discriminate].
    apply end_time_setter_ok.
  - discriminate.
  - discriminate.
  - intros [= <-]. unfold period_ok; simpl. unfold timedelta_weeks. lia.
Qed.

(** C5.  Every object a client can hold has an ordered time period: the
    order holds after construction and after every assignment to
    [start_time] or [end_time] that does not raise, and an assignment that
    would put the start after the end raises the [ValueError] of the
    setter. *)
Theorem period_ordered (self : t) :
  constructed self →
  period_ok self
  ∧ (∀ v self', start_time_setter self v = Ok self' → period_ok self')
  ∧ (∀ v self', end_time_setter self v = Ok self' → period_ok self')
  ∧ (∀ v e, end_time self = Some e → e < v →
       start_time_setter self v
       = Raise (Exn ValueError "Start of time period is after end"))
  ∧ (∀ v s, start_time self = Some s → v < s →
       end_time_setter self v
       = Raise (Exn ValueError "End of time period is before start")).
Proof.
  intros Hc. split; [|split; [|split; [|split]]].
  - induction Hc as [? ? ? ? ? ? ? ? ? Hi|? ? ? _ _ Hs|? ? ? _ _ He].
    + exact (init_ok _ _ _ _ _ _ _ _ _ Hi).
    + exact (start_time_setter_ok _ _ _ Hs).
    + exact (end_time_setter_ok _ _ _ He).
  - intros v self'. apply start_time_setter_ok.
  - intros v self'. apply end_time_setter_ok.
  - intros v e He Hlt. unfold start_time_setter. rewrite He.
    apply Z.ltb_lt in Hlt. rewrite Hlt. reflexivity.
  - intros v s Hs Hlt. unfold end_time_setter. rewrite Hs.
    assert ((s >? v) = true) as -> by (rewrite Z.gtb_ltb; apply Z.ltb_lt; lia).
    reflexivity.
Qed.

(** The object the constructor gives at day 0 without bounds. *)
Lemma period_ordered_witness :
  period_ok Sample.uploader.
Proof.
  refine (proj1 (period_ordered _ _)).
  apply (constructed_init 0 "123456" "secret" "https://x/cal/42" "me" "pw" None None).
  reflexivity.
Defined.

(** One bound alone makes the constructor raise. *)
Lemma init_one_bound today mat campus_pass cal_url cal_user cal_pass v :
  __init__ today mat campus_pass cal_url cal_user cal_pass (Some v) None
  = Raise (Exn ValueError "Can not upload calendar with only one time period boundary")
  ∧ __init__ today mat campus_pass cal_url cal_user cal_pass None (Some v)
  = Raise (Exn ValueError "Can not upload calendar with only one time period boundary").
Proof. split; reflexivity. Qed.

(** Both bounds, in order and with the start not after the default end: the
    constructor takes them. *)
Lemma init_both_bounds today mat campus_pass cal_url cal_user cal_pass s e :
  s <= e → s <= today + timedelta_weeks 27 →
  __init__ today mat campus_pass cal_url cal_user cal_pass (Some s) (Some e)
  = Ok (Self (Some s) (Some e) mat campus_pass cal_url cal_user cal_pass).
Proof.
  intros Hse Hs. unfold __init__, start_time_setter, end_time_setter; simpl.
  assert ((today + timedelta_weeks 27 <? s) = false) as -> by (apply Z.ltb_ge; lia).
  simpl.
  assert ((s >? e) = false) as -> by (rewrite Z.gtb_ltb; apply Z.ltb_ge; lia).
  reflexivity.
Qed.

(** Both bounds, in order, but the start after the default end: the setter of
    [start_time] compares with the default end the constructor has just
    stored, and raises. *)
Lemma init_both_bounds_late today mat campus_pass cal_url cal_user cal_pass s e :
  today + timedelta_weeks 27 < s →
  __init__ today mat campus_pass cal_url cal_user cal_pass (Some s) (Some e)
  = Raise (Exn ValueError "Start of time period is after end").
Proof.
  intros Hs. unfold __init__, start_time_setter; simpl.
  assert ((today + timedelta_weeks 27 <? s) = true) as -> by (apply Z.ltb_lt; lia).
  reflexivity.
Qed.

(** C4.  At day 0 the constructor is given the ordered period from week 28
    to week 29: it raises a [ValueError], although both bounds are there. *)
Theorem init_ordered_bounds_raise :
  timedelta_weeks 28 <= timedelta_weeks 29
  ∧ __init__ 0 "123456" "secret" "https://x/cal/42" "me" "pw"
      (Some (timedelta_weeks 28)) (Some (timedelta_weeks 29))
    = Raise (Exn ValueError "Start of time period is after end").
Proof. split; [apply timedelta_weeks_mono; lia | reflexivity]. Qed.

(** ** The events of the source calendar *)

Lemma filter_interleaved {A : Type} (P : A → Prop) `{!∀ x, Decision (P x)}
    (xs ys l : list A) :
  interleaved xs ys l → Forall P xs → Forall (λ y, ¬ P y) ys → filter P l = xs.
Proof.
  induction 1 as [|x xs ys l _ IH|y xs ys l _ IH]; intros Hxs Hys.
  - reflexivity.
  - apply Forall_cons in Hxs as [Hx Hxs].
    rewrite filter_cons_True by exact Hx. f_equal. exact (IH Hxs Hys).
  - apply Forall_cons in Hys as [Hy Hys].
    rewrite filter_cons_False by exact Hy. exact (IH Hxs Hys).
Qed.

Lemma length_interleaved {A : Type} (xs ys l : list A) :
  interleaved xs ys l → length l = (length xs + length ys)%nat.
Proof. induction 1; simpl; lia. Qed.

(** The events [upload] hands to [_upload_events] are [source_events] of the
    calendar [_retrieve_source_calendar] has returned. *)
Lemma upload_filters (self : t) :
  upload self
  = (source_cal ← _retrieve_source_calendar self;
     upload_cal ← _retrieve_upload_calendar self;
     _upload_events self upload_cal (source_events source_cal)).
Proof. reflexivity. Qed.

(** C3.  When the top-level components of the parsed calendar are [N] events
    and [M] other components, in any merge, the list [upload] keeps is the
    list of the [N] events in their order: nothing else is in it. *)
Theorem source_events_exact (source_cal : icalendar.Component)
    (events others : list icalendar.Component) (N M : nat) :
  interleaved events others (icalendar.subcomponents source_cal) →
  Forall (λ x, icalendar.isinstance_Event x = true) events →
  Forall (λ x, icalendar.isinstance_Event x = false) others →
  length events = N → length others = M →
  length (icalendar.subcomponents source_cal) = (N + M)%nat
  ∧ source_events source_cal = events
  ∧ length (source_events source_cal) = N.
Proof.
  intros Hmerge Hev Hoth HN HM.
  assert (source_events source_cal = events) as Heq.
  { unfold source_events. apply (filter_interleaved _ events others); [done..|].
    eapply Forall_impl; [exact Hoth|]. intros x Hx. rewrite Hx. discriminate. }
  split; [|split].
  - rewrite (length_interleaved _ _ _ Hmerge). congruence.
  - exact Heq.
  - rewrite Heq. exact HN.
Qed.

(** The sample listing: a time zone, an event, a to-do, an event. *)
Lemma source_events_exact_witness :
  source_events Sample.listing
  = [ icalendar.mkComponent icalendar.Event [("SUMMARY", "Analysis")] [];
      icalendar.mkComponent icalendar.Event [("SUMMARY", "Algebra")] [] ].
Proof.
  refine (proj1 (proj2 (source_events_exact Sample.listing _
    [ icalendar.mkComponent icalendar.Timezone [("TZID", "Europe/Berlin")] [];
      icalendar.mkComponent icalendar.Todo [("SUMMARY", "Sheet 3")] [] ]
    2 2 _ _ _ _ _))).
  - simpl. apply interleaved_right, interleaved_left, interleaved_right,
      interleaved_left, interleaved_nil.
  - repeat constructor.
  - repeat constructor.
  - reflexivity.
  - reflexivity.
Defined.

(** ** The search for the destination calendar *)

Lemma search_calendar_first target pre c post :
  Forall (λ c', caldav.url c' ≠ target) pre → caldav.url c = target →
  search_calendar target (pre ++ c :: post) = Some c.
Proof.
  intros Hpre Hc. induction Hpre as [|c' pre Hc' _ IH]; simpl.
  - rewrite bool_decide_eq_true_2 by exact Hc. reflexivity.
  - rewrite bool_decide_eq_false_2 by exact Hc'. exact IH.
Qed.

Lemma search_calendar_none target cs :
  Forall (λ c', caldav.url c' ≠ target) cs → search_calendar target cs = None.
Proof.
  induction 1 as [|c' cs Hc' _ IH]; simpl; [reflexivity|].
  rewrite bool_decide_eq_false_2 by exact Hc'. exact IH.
Qed.

(** What the search gives is in the list, has the url, and nothing before it
    has. *)
Lemma search_calendar_Some target cs c :
  search_calendar target cs = Some c →
  ∃ pre post, cs = pre ++ c :: post ∧ caldav.url c = target
              ∧ Forall (λ c', caldav.url c' ≠ target) pre.
Proof.
  induction cs as [|c' cs IH]; simpl; [discriminate|].
  case_bool_decide as Hc'.
  - intros [= <-]. exists [], cs. split; [reflexivity|]. split; [exact Hc'|constructor].
  - intros Hs. destruct (IH Hs) as (pre & post & -> & Hc & Hpre).
    exists (c' :: pre), post. split; [reflexivity|]. split; [exact Hc|].
    constructor; assumption.
Qed.

(** ** Running the methods *)

(** Unfolds the monad so that a run shows the answers of the world it
    depends on. *)
Ltac run_M :=
  cbv [mbind M_bind bind mret M_ret ret raise lift perform log_info log_error] in *.

(** C6.  Once the principal has listed its calendars, the method returns the
    first calendar of the list whose url is the configured url, and raises
    [caldav.error.NotFoundError] when no calendar of the list has that url. *)
Theorem retrieve_upload_calendar_first (self : t) (w : World) (tr : transcript)
    (cs : list caldav.Calendar) (i : nat) :
  (_retrieve_upload_calendar self w tr).2 !! i
  = Some (Entry (principal_calendars (calendar_url self) (calendar_user self)
                   (calendar_pass self)) (RCalendars cs)) →
  (∀ pre c post,
     cs = pre ++ c :: post →
     Forall (λ c', caldav.url c' ≠ calendar_url self) pre →
     caldav.url c = calendar_url self →
     (_retrieve_upload_calendar self w tr).1 = Ok c)
  ∧ (Forall (λ c', caldav.url c' ≠ calendar_url self) cs →
     (_retrieve_upload_calendar self w tr).1
     = Raise (Exn caldav_NotFoundError "Could not find calendar with given url")).
Proof.
  unfold _retrieve_upload_calendar. run_M.
  destruct (Principal_init w tr _ _ _) as [[]|e0]; simpl.
  2:{ destruct i as [|[|]]; discriminate. }
  destruct (Principal_calendars w _ _ _ _) as [cs'|e1]; simpl.
  2:{ destruct i as [|[|[|[|]]]]; discriminate. }
  intros Hi.
  assert (cs' = cs) as ->.
  { destruct (search_calendar _ cs'); simpl in Hi;
      destruct i as [|[|[|[|]]]]; simplify_eq/=; reflexivity. }
  split.
  - intros pre c post -> Hpre Hc.
    rewrite (search_calendar_first _ pre c post Hpre Hc). reflexivity.
  - intros Hnone. rewrite (search_calendar_none _ cs Hnone). reflexivity.
Qed.

(** The example of three calendars with the urls 41, 42 and 43, looking
    for 42. *)
Lemma retrieve_upload_calendar_first_witness :
  (_retrieve_upload_calendar
     (Self None None "123456" "secret" "https://x/cal/42" "me" "pw")
     Sample.fine []).1 = Ok Sample.cal42.
Proof.
  refine (proj1 (retrieve_upload_calendar_first
    (Self None None "123456" "secret" "https://x/cal/42" "me" "pw") Sample.fine []
    [Sample.cal41; Sample.cal42; Sample.cal43] 2 _)
    [Sample.cal41] Sample.cal42 [Sample.cal43] _ _ _).
  - reflexivity.
  - reflexivity.
  - repeat constructor. discriminate.
  - reflexivity.
Defined.

(** ** What a computation writes *)

Section Emits.
Context {A B : Type} (w : World) (P : entry → Prop).

Lemma emits_ret (a : A) : emits w P (mret a).
Proof. intros tr. constructor. Qed.

Lemma emits_raise (e : exn) : emits w P (raise e : M A).
Proof. intros tr. constructor. Qed.

Lemma emits_lift (r : World → result A) : emits w P (lift r).
Proof. intros tr. constructor. Qed.

Lemma emits_log_info (msg : string) :
  P (Entry (logging INFO msg) Returned) → emits w P (log_info msg).
Proof. intros H tr. repeat constructor. exact H. Qed.

Lemma emits_perform (c : call) (ask : World → transcript → result A) (inj : A → reply) :
  (∀ rep, P (Entry c rep)) → emits w P (perform c ask inj).
Proof.
  intros H tr. unfold perform. destruct (ask w tr); repeat constructor; apply H.
Qed.

Lemma emits_bind (m : M A) (f : A → M B) :
  emits w P m → (∀ a, emits w P (f a)) → emits w P (m ≫= f).
Proof.
  intros Hm Hf tr. specialize (Hm tr). run_M.
  destruct (m w tr) as [[a|e] out]; simpl in *; [|exact Hm].
  specialize (Hf a (tr ++ out)).
  destruct (f a w (tr ++ out)) as [r out']; simpl in *.
  apply Forall_app; split; assumption.
Qed.

(** After a pure call the rest runs only with a value the call has given. *)
Lemma emits_bind_lift (r : World → result A) (f : A → M B) :
  (∀ a, r w = Ok a → emits w P (f a)) → emits w P (lift r ≫= f).
Proof.
  intros Hf tr. run_M. destruct (r w) as [a|e] eqn:Hr; simpl; [|constructor].
  specialize (Hf a eq_refl (tr ++ [])).
  destruct (f a w (tr ++ [])) as [r' out']; simpl in *. exact Hf.
Qed.

End Emits.

Lemma emits_for_enumerate {A : Type} (w : World) (P : entry → Prop)
    (body : nat → A → M unit) (xs : list A) (i : nat) :
  (∀ i x, emits w P (body i x)) → emits w P (for_enumerate i xs body).
Proof.
  intros Hbody. revert i. induction xs as [|x xs IH]; intros i; simpl.
  - apply emits_ret.
  - apply (emits_bind w P (body i x)); [apply Hbody|]. intros _. apply IH.
Qed.

(** The rules above, applied as far as they go. *)
Ltac emits_step :=
  first
    [ apply emits_ret | apply emits_raise | apply emits_lift
    | apply emits_log_info | apply emits_perform
    | apply emits_for_enumerate; intros ? ?
    | apply emits_bind; [|intros ?] ].

(** ** Replacing the events of the destination *)

Lemma deletions_step (msg : string) (ev : caldav.Event) (rep : reply) (out : transcript) :
  deletions (Entry (logging INFO msg) Returned :: Entry (event_delete ev) rep :: out)
  = (ev, rep) :: deletions out.
Proof. reflexivity. Qed.

Arguments deletions : simpl never.

Lemma deletions_app (out out' : transcript) :
  deletions (out ++ out') = deletions out ++ deletions out'.
Proof. apply omap_app. Qed.

Lemma deletions_none (out : transcript) :
  Forall (λ x, is_deletion x = false) out → deletions out = [].
Proof.
  induction 1 as [|x out Hx _ IH]; [reflexivity|].
  change (x :: out) with ([x] ++ out). rewrite deletions_app, IH, app_nil_r.
  unfold is_deletion in Hx. unfold deletions. simpl.
  destruct (e_call x); try reflexivity. discriminate.
Qed.

(** The first loop writes log lines and deletions; when it ends, it has
    deleted all the events, in their order; when it raises, a deletion has
    raised. *)
Lemma delete_loop_run (w : World) (n : nat) (old : list caldav.Event) (i : nat)
    (tr : transcript) :
  Forall (λ x, is_log x || is_deletion x = true)
    (for_enumerate i old (delete_body n) w tr).2
  ∧ match (for_enumerate i old (delete_body n) w tr).1 with
    | Ok _ =>
        deletions (for_enumerate i old (delete_body n) w tr).2
        = (λ ev, (ev, Returned)) <$> old
    | Raise e =>
        ∃ k ev,
          old !! k = Some ev
          ∧ deletions (for_enumerate i old (delete_body n) w tr).2
            = ((λ ev, (ev, Returned)) <$> take k old) ++ [(ev, Raised e)]
    end.
Proof.
  revert i tr. induction old as [|ev old IH]; intros i tr; simpl.
  - split; [constructor|reflexivity].
  - cbv [bind].
    destruct (delete_body n i ev w tr) as [r0 out0] eqn:Hb.
    assert ((r0 = Ok tt
             ∧ out0 = [Entry (logging INFO (index_of "Delete event " i n)) Returned;
                       Entry (event_delete ev) Returned])
            ∨ (∃ e, r0 = Raise e
                    ∧ out0 = [Entry (logging INFO (index_of "Delete event " i n)) Returned;
                              Entry (event_delete ev) (Raised e)])) as Hb'.
    { unfold delete_body in Hb. run_M.
      destruct (Event_delete w _ ev) as [[]|e]; simplify_eq/=; eauto. }
    clear Hb. destruct Hb' as [[-> ->]|(e & -> & ->)].
    + destruct (IH (S i) (tr ++ [Entry (logging INFO (index_of "Delete event " i n)) Returned;
                                 Entry (event_delete ev) Returned])) as [Hins Hres].
      destruct (for_enumerate (S i) old (delete_body n) w _) as [[[]|e] out]; simpl in *.
      * split; [repeat constructor; exact Hins|].
        rewrite (deletions_step (index_of "Delete event " i n) ev Returned out), Hres.
        reflexivity.
      * split; [repeat constructor; exact Hins|].
        destruct Hres as (k & ev' & Hk & Hdel).
        exists (S k), ev'. split; [exact Hk|].
        rewrite (deletions_step (index_of "Delete event " i n) ev Returned out), Hdel.
        reflexivity.
    + simpl. split; [repeat constructor|].
      exists 0%nat, ev. split; reflexivity.
Qed.

(** The second loop writes log lines and insertions. *)
Lemma insert_loop_emits (w : World) (upload_cal : caldav.Calendar) (n : nat)
    (events : list icalendar.Component) (i : nat) :
  emits w (λ x, is_log x || is_insertion x = true)
    (for_enumerate i events (insert_body upload_cal n)).
Proof.
  unfold insert_body. repeat emits_step; reflexivity.
Qed.

(** The shape of what [_upload_events] writes: the query, then the lines of
    the first loop, then those of the second. *)
Lemma upload_events_shape (self : t) (upload_cal : caldav.Calendar)
    (events : list icalendar.Component) (w : World) (tr : transcript) :
  ∃ rep dels rest,
    (_upload_events self upload_cal events w tr).2
    = Entry (logging INFO "Delete all existing events in given time period") Returned
      :: Entry (calendar_date_search upload_cal (start_time self) (end_time self)) rep
      :: dels ++ rest
    ∧ Forall (λ x, is_log x || is_deletion x = true) dels
    ∧ Forall (λ x, is_log x || is_insertion x = true) rest
    ∧ match rep with
      | Raised e =>
          dels = [] ∧ rest = []
          ∧ (_upload_events self upload_cal events w tr).1 = Raise e
      | REvents old =>
          deletions dels = (λ ev, (ev, Returned)) <$> old
          ∨ (rest = []
             ∧ ∃ k ev e,
                 old !! k = Some ev
                 ∧ deletions dels
                   = ((λ ev, (ev, Returned)) <$> take k old) ++ [(ev, Raised e)]
                 ∧ (_upload_events self upload_cal events w tr).1 = Raise e)
      | _ => False
      end.
Proof.
  unfold _upload_events.
  change (λ (i : nat) (ev : caldav.Event),
            log_info (index_of "Delete event " i ?n);;
            perform (event_delete ev) (λ w tr, Event_delete w tr ev) (λ _, Returned))
    with (delete_body n).
  change (λ (i : nat) (ev : icalendar.Component),
            log_info (index_of "Upload event " i ?n);;
            ical ← lift (λ w, Ok (to_ical w (icalendar.Calendar_with ev)));
            perform (calendar_add_event upload_cal ical)
              (λ w tr, Calendar_add_event w tr upload_cal ical) (λ _, Returned))
    with (insert_body upload_cal n).
  run_M.
  destruct (Calendar_date_search w _ upload_cal _ _) as [old|e]; simpl.
  2:{ exists (Raised e), [], []. repeat split; constructor. }
  match goal with
  | |- context [for_enumerate 0 old _ w ?tr'] =>
      destruct (delete_loop_run w (length old) old 0 tr') as [Hins Hres];
      destruct (for_enumerate 0 old (delete_body (length old)) w tr') as [[[]|e] dels]
  end; simpl in *.
  - match goal with
    | |- context [for_enumerate 0 events _ w ?tr'] =>
        pose proof (insert_loop_emits w upload_cal (length events) events 0 tr') as Hdel;
        destruct (for_enumerate 0 events (insert_body upload_cal (length events)) w tr')
          as [r adds]
    end; simpl in *.
    exists (REvents old), dels,
      (Entry (logging INFO "Upload all events") Returned :: adds).
    split; [reflexivity|]. split; [exact Hins|].
    split; [constructor; [reflexivity|exact Hdel]|].
    left. exact Hres.
  - exists (REvents old), dels, []. rewrite app_nil_r.
    split; [reflexivity|]. split; [exact Hins|]. split; [constructor|].
    right. split; [reflexivity|].
    destruct Hres as (k & ev & Hk & Hd). exists k, ev, e. done.
Qed.

Lemma deletions_elem (out : transcript) (i : nat) (ev : caldav.Event) (rep : reply) :
  out !! i = Some (Entry (event_delete ev) rep) → (ev, rep) ∈ deletions out.
Proof.
  intros Hi. unfold deletions. apply list_elem_of_omap.
  exists (Entry (event_delete ev) rep). split; [|reflexivity].
  apply list_elem_of_lookup. exists i. exact Hi.
Qed.

Lemma log_or_deletion x :
  is_log x || is_deletion x = true → is_insertion x = false.
Proof. unfold is_log, is_deletion, is_insertion. destruct (e_call x); done. Qed.

Lemma log_or_insertion x :
  is_log x || is_insertion x = true → is_deletion x = false.
Proof. unfold is_log, is_deletion, is_insertion. destruct (e_call x); done. Qed.

(** In a transcript of two parts, the first without insertions and the
    second without deletions, a deletion comes before every insertion. *)
Lemma two_phases (dels rest : transcript) (i j : nat) (x y : entry) :
  Forall (λ x, is_log x || is_deletion x = true) dels →
  Forall (λ x, is_log x || is_insertion x = true) rest →
  (dels ++ rest) !! i = Some x → (dels ++ rest) !! j = Some y →
  is_deletion x = true → is_insertion y = true →
  (i < length dels ≤ j)%nat.
Proof.
  intros Hd Hr Hi Hj Hx Hy.
  apply lookup_app_Some in Hi as [Hi|[Hlen Hi]].
  2:{ apply (proj1 (Forall_lookup _ _) Hr) in Hi.
      apply log_or_insertion in Hi. congruence. }
  apply lookup_app_Some in Hj as [Hj|[Hlen Hj]].
  { apply (proj1 (Forall_lookup _ _) Hd) in Hj.
    apply log_or_deletion in Hj. congruence. }
  apply lookup_lt_Some in Hi. lia.
Qed.

(** C2.  When the query for the events of the period raises, [_upload_events]
    raises the same exception and has written nothing but its first log line
    and the query: no deletion and no insertion has gone to the destination. *)
Theorem query_failure_aborts (self : t) (upload_cal : caldav.Calendar)
    (events : list icalendar.Component) (w : World) (tr : transcript)
    (e : exn) (i : nat) :
  (_upload_events self upload_cal events w tr).2 !! i
  = Some (Entry (calendar_date_search upload_cal (start_time self) (end_time self))
            (Raised e)) →
  (_upload_events self upload_cal events w tr).1 = Raise e
  ∧ (_upload_events self upload_cal events w tr).2
    = [ Entry (logging INFO "Delete all existing events in given time period") Returned;
        Entry (calendar_date_search upload_cal (start_time self) (end_time self))
          (Raised e) ]
  ∧ Forall (λ x, is_mutation x = false) (_upload_events self upload_cal events w tr).2.
Proof.
  destruct (upload_events_shape self upload_cal events w tr)
    as (rep & dels & rest & Hout & Hd & Hr & Hrep).
  rewrite Hout. intros Hi.
  destruct i as [|[|i]]; simpl in Hi.
  - discriminate.
  - injection Hi as ->. destruct Hrep as (-> & -> & Hres).
    split; [exact Hres|]. split; [reflexivity|]. repeat constructor.
  - exfalso. apply lookup_app_Some in Hi as [Hi|[_ Hi]].
    + apply (proj1 (Forall_lookup _ _) Hd) in Hi. discriminate.
    + apply (proj1 (Forall_lookup _ _) Hr) in Hi. discriminate.
Qed.

(** C1.  In what [_upload_events] writes, every deletion comes before every
    insertion; when an insertion is there, the lines before it hold the
    deletion of every event the query has returned, in the order of the
    query and none of them raised; and when a deletion has raised, its
    exception leaves the method and no insertion is there. *)
Theorem deletions_before_insertions (self : t) (upload_cal : caldav.Calendar)
    (events : list icalendar.Component) (w : World) (tr : transcript) :
  (∀ i j x y,
     (_upload_events self upload_cal events w tr).2 !! i = Some x →
     (_upload_events self upload_cal events w tr).2 !! j = Some y →
     is_deletion x = true → is_insertion y = true → (i < j)%nat)
  ∧ (∀ j y,
       (_upload_events self upload_cal events w tr).2 !! j = Some y →
       is_insertion y = true →
       ∃ old,
         (_upload_events self upload_cal events w tr).2 !! 1%nat
         = Some (Entry (calendar_date_search upload_cal (start_time self) (end_time self))
                   (REvents old))
         ∧ deletions (take j (_upload_events self upload_cal events w tr).2)
           = (λ ev, (ev, Returned)) <$> old)
  ∧ (∀ i ev e,
       (_upload_events self upload_cal events w tr).2 !! i
       = Some (Entry (event_delete ev) (Raised e)) →
       (_upload_events self upload_cal events w tr).1 = Raise e
       ∧ Forall (λ y, is_insertion y = false)
           (_upload_events self upload_cal events w tr).2).
Proof.
  destruct (upload_events_shape self upload_cal events w tr)
    as (rep & dels & rest & Hout & Hd & Hr & Hrep).
  rewrite Hout. split; [|split].
  - intros i j x y Hi Hj Hx Hy.
    destruct i as [|[|i]]; simpl in Hi; [by simplify_eq..|].
    destruct j as [|[|j]]; simpl in Hj; [by simplify_eq..|].
    pose proof (two_phases dels rest i j x y Hd Hr Hi Hj Hx Hy). lia.
  - intros j y Hj Hy.
    destruct j as [|[|j]]; simpl in Hj; [by simplify_eq..|].
    apply lookup_app_Some in Hj as [Hj|[Hlen Hj]].
    { apply (proj1 (Forall_lookup _ _) Hd) in Hj.
      apply log_or_deletion in Hj. congruence. }
    destruct rep as [e| | | | |old]; try done.
    { destruct Hrep as (_ & -> & _). discriminate. }
    destruct Hrep as [Hdels|[-> _]]; [|discriminate].
    exists old. split; [reflexivity|].
    simpl. rewrite take_app_ge by exact Hlen.
    change (deletions ([Entry (logging INFO "Delete all existing events in given time period")
                          Returned;
                        Entry (calendar_date_search upload_cal (start_time self)
                                 (end_time self)) (REvents old)]
                       ++ (dels ++ take (j - length dels) rest))
            = (λ ev, (ev, Returned)) <$> old).
    rewrite !deletions_app, Hdels.
    rewrite (deletions_none (take _ rest)).
    + rewrite app_nil_r. reflexivity.
    + apply Forall_take. eapply Forall_impl; [exact Hr|]. apply log_or_insertion.
  - intros i ev e Hi.
    destruct i as [|[|i]]; simpl in Hi; [by simplify_eq..|].
    apply lookup_app_Some in Hi as [Hi|[_ Hi]].
    2:{ apply (proj1 (Forall_lookup _ _) Hr) in Hi. discriminate. }
    apply deletions_elem in Hi.
    assert (∀ l : list caldav.Event,
              (ev, Raised e) ∉ (λ ev, (ev, Returned)) <$> l) as Hnot.
    { intros l Hin. apply list_elem_of_fmap in Hin as (ev' & Heq & _). discriminate. }
    destruct rep as [e'| | | | |old]; try done.
    { destruct Hrep as (-> & _). inversion Hi. }
    destruct Hrep as [Hdels|(-> & k & ev' & e' & _ & Hdels & Hres)].
    { rewrite Hdels in Hi. destruct (Hnot _ Hi). }
    rewrite Hdels in Hi. apply elem_of_app in Hi as [Hi|Hi]; [destruct (Hnot _ Hi)|].
    apply list_elem_of_singleton in Hi. injection Hi as -> ->.
    split; [exact Hres|].
    rewrite app_nil_r. repeat constructor.
    eapply Forall_impl; [exact Hd|]. apply log_or_deletion.
Qed.

(** The destination refuses the query. *)
Lemma query_failure_aborts_witness :
  (_upload_events Sample.uploader Sample.cal42 (source_events Sample.listing)
     Sample.query_down []).1
  = Raise (Exn caldav_ReportError "REPORT failed").
Proof.
  refine (proj1 (query_failure_aborts Sample.uploader Sample.cal42
    (source_events Sample.listing) Sample.query_down []
    (Exn caldav_ReportError "REPORT failed") 1 _)).
  reflexivity.
Defined.

(** With two events at the destination and two in the listing, the second
    deletion is line 5 and the first insertion line 8; and when the second
    deletion is refused, its exception leaves the method. *)
Lemma deletions_before_insertions_witness :
  (5 < 8)%nat
  ∧ (_upload_events Sample.uploader Sample.cal42 (source_events Sample.listing)
       Sample.delete_down []).1
    = Raise (Exn caldav_DeleteError "DELETE failed").
Proof.
  split.
  - refine (proj1 (deletions_before_insertions Sample.uploader Sample.cal42
      (source_events Sample.listing) Sample.fine []) 5%nat 8%nat
      (Entry (event_delete Sample.old2) Returned)
      (Entry (calendar_add_event Sample.cal42 "Analysis") Returned) _ _ _ _);
      reflexivity.
  - refine (proj1 (proj2 (proj2 (deletions_before_insertions Sample.uploader
      Sample.cal42 (source_events Sample.listing) Sample.delete_down []))
      5%nat Sample.old2 (Exn caldav_DeleteError "DELETE failed") _)).
    reflexivity.
Defined.

(** ** Fetching the source calendar *)

Lemma prefix_app (s1 s2 : string) : String.prefix s1 (s1 +:+ s2) = true.
Proof.
  induction s1 as [|c s1 IH]; simpl; [by destruct s2|].
  destruct (Ascii.ascii_dec c c); [exact IH|done].
Qed.

Lemma prefix_inv (s1 s : string) :
  String.prefix s1 s = true → ∃ s2, s = s1 +:+ s2.
Proof.
  revert s. induction s1 as [|c s1 IH]; intros s.
  - intros _. exists s. reflexivity.
  - destruct s as [|c' s]; simpl; [discriminate|].
    destruct (Ascii.ascii_dec c c') as [->|]; [|discriminate].
    intros H. destruct (IH s H) as [s2 ->]. exists s2. reflexivity.
Qed.

Lemma str_contains_nil (needle : string) :
  str_contains needle "" = String.prefix needle "".
Proof. unfold str_contains. apply orb_false_r. Qed.

Lemma str_contains_cons (needle : string) (c : Ascii.ascii) (hay : string) :
  str_contains needle (String c hay)
  = String.prefix needle (String c hay) || str_contains needle hay.
Proof. reflexivity. Qed.

(** [str_contains needle hay] holds exactly when [needle] is a part of
    [hay]. *)
Lemma str_contains_spec (needle hay : string) :
  str_contains needle hay = true ↔ ∃ before after, hay = before +:+ needle +:+ after.
Proof.
  split.
  - induction hay as [|c hay IH].
    + rewrite str_contains_nil. intros H. apply prefix_inv in H as [s2 H].
      exists "", s2. exact H.
    + rewrite str_contains_cons. intros H. apply orb_true_iff in H as [H|H].
      * apply prefix_inv in H as [s2 H]. exists "", s2. exact H.
      * destruct (IH H) as (before & after & ->).
        exists (String c before), after. reflexivity.
  - intros (before & after & ->).
    induction before as [|c before IH].
    + change ("" +:+ needle +:+ after) with (needle +:+ after).
      destruct (needle +:+ after) as [|c s] eqn:Heq.
      * rewrite str_contains_nil, <- Heq. apply prefix_app.
      * rewrite str_contains_cons, <- Heq, prefix_app. reflexivity.
    + change (String c before +:+ needle +:+ after)
        with (String c (before +:+ needle +:+ after)).
      rewrite str_contains_cons, IH. apply orb_true_r.
Qed.

(** *** The equations of a run *)

Section Run.
Context {A B : Type}.

Lemma run_log_info (msg : string) (f : unit → M B) (w : World) (tr : transcript) :
  (log_info msg ≫= f) w tr
  = after_lines [Entry (logging INFO msg) Returned]
      (f tt w (tr ++ [Entry (logging INFO msg) Returned])).
Proof.
  run_M. destruct (f _ w _) as [r out]. reflexivity.
Qed.

Lemma run_perform (c : call) (ask : World → transcript → result A) (inj : A → reply)
    (f : A → M B) (w : World) (tr : transcript) :
  (perform c ask inj ≫= f) w tr
  = match ask w tr with
    | Ok a => after_lines [Entry c (inj a)] (f a w (tr ++ [Entry c (inj a)]))
    | Raise e => (Raise e, [Entry c (Raised e)])
    end.
Proof.
  run_M. destruct (ask w tr) as [a|e]; [|reflexivity].
  destruct (f a w _) as [r out]. reflexivity.
Qed.

Lemma run_lift (r : World → result A) (f : A → M B) (w : World) (tr : transcript) :
  (lift r ≫= f) w tr
  = match r w with
    | Ok a => f a w tr
    | Raise e => (Raise e, [])
    end.
Proof.
  run_M. destruct (r w) as [a|e]; [|reflexivity].
  rewrite app_nil_r. destruct (f a w tr) as [r' out]. reflexivity.
Qed.

Lemma run_ret (a : A) (f : A → M B) (w : World) (tr : transcript) :
  (mret a ≫= f) w tr = f a w tr.
Proof.
  run_M. rewrite app_nil_r. destruct (f a w tr) as [r' out]. reflexivity.
Qed.

Lemma run_raise (e : exn) (f : A → M B) (w : World) (tr : transcript) :
  ((raise e : M A) ≫= f) w tr = (Raise e, []).
Proof. reflexivity. Qed.

End Run.

(** One step of a run in the hypothesis [H]. *)
Ltac run_step H :=
  first [ rewrite run_log_info in H | rewrite run_perform in H
        | rewrite run_lift in H | rewrite run_ret in H | rewrite run_raise in H ];
  cbv beta iota zeta in H.

(** A case of a run in [H]: an answer of the world, a test of the method. *)
Ltac run_case H :=
  match type of H with
  | context [match ?x with Ok _ => _ | Raise _ => _ end] => destruct x eqn:?
  | context [match ?x with Some _ => _ | None => _ end] => destruct x eqn:?
  | context [if ?b then _ else _] => destruct b eqn:?
  end.

(** All the runs of the method in [H : p = m w tr]. *)
Ltac run_all H :=
  repeat first [run_step H | run_case H];
  cbv [lift mret M_ret ret raise] in H.

(** The cases of a line number below ten. *)
Ltac line_cases i :=
  destruct i as [|[|[|[|[|[|[|[|[|[|i]]]]]]]]]].

(** C7, as the code has it.  The login has returned a response whose
    redirect goes to a location that contains ['loginfailed'].  The method
    first checks the status of the response: with a status that is no error
    it raises [CampusOfficeAuthorizationError], with a 4xx or 5xx status the
    [HTTPError] of [raise_for_status] leaves the method instead.  Either way
    nothing follows the login in the transcript: the export is never asked
    for.  [CampusOfficeAuthorizationError] is not an instance of
    [requests.RequestException]. *)
Theorem login_failure_raises (self : t) (w : World) (tr : transcript)
    (req first : requests.Response) (location : string) (i : nat) :
  (_retrieve_source_calendar self w tr).2 !! i
  = Some (Entry (session_post (_campus_base_url +:+ _campus_login_url)
                   (<["u" := matriculation_number self]>
                      (<["p" := campus_password self]> ∅)))
            (RResponse req)) →
  requests.history req !! 0%nat = Some first →
  requests.headers first !! "location" = Some location →
  str_contains "loginfailed" location = true →
  (requests.raise_for_status req = Ok tt →
   (_retrieve_source_calendar self w tr).1 = Raise CampusOfficeAuthorizationError_)
  ∧ (∀ e, requests.raise_for_status req = Raise e →
          (_retrieve_source_calendar self w tr).1 = Raise e)
  ∧ (∃ landing,
       (_retrieve_source_calendar self w tr).2
       = [ Entry (logging INFO "Fetch base page for session cookie") Returned;
           Entry (session_get _campus_base_url) (RResponse landing);
           Entry (logging INFO "Validate session by logging in") Returned;
           Entry (session_post (_campus_base_url +:+ _campus_login_url)
                    (<["u" := matriculation_number self]>
                       (<["p" := campus_password self]> ∅)))
             (RResponse req) ])
  ∧ isinstance_exn CampusOfficeAuthorizationError_ requests_RequestException = false.
Proof.
  remember (_retrieve_source_calendar self w tr) as p eqn:Hp.
  intros Hi Hfirst Hloc Hfailed.
  unfold _retrieve_source_calendar in Hp.
  run_all Hp; subst p; cbn [after_lines fst snd app] in Hi |- *.
  all: line_cases i; cbn [lookup list_lookup] in Hi; try discriminate Hi.
  all: injection Hi as ->.
  all: rewrite ?Hfirst in *; simplify_eq; rewrite ?Hloc in *; simplify_eq.
  all: try congruence.
  all: split; [congruence|]; split; [congruence|]; split; [|reflexivity].
  all: eexists; reflexivity.
Qed.

(** The page of failed logins. *)
Lemma login_failure_raises_witness :
  (_retrieve_source_calendar Sample.uploader Sample.login_refused []).1
  = Raise CampusOfficeAuthorizationError_.
Proof.
  refine (proj1 (login_failure_raises Sample.uploader Sample.login_refused []
    (Sample.page "login.asp?loginfailed=1")
    (requests.mkResponse 302 (<["location" := "login.asp?loginfailed=1"]> ∅) [] "")
    "login.asp?loginfailed=1" 3 _ _ _ _) _); reflexivity.
Defined.

(** C7, as the claim has it, fails: the page of failed logins answers with
    an internal error, the location of the redirect contains the marker, and
    the method raises the [HTTPError] of the status check, which is an
    instance of [requests.RequestException]. *)
Lemma login_failure_http_error :
  ¬ (∀ (self : t) (w : World) (tr : transcript) (req first : requests.Response)
       (location : string) (i : nat),
       (_retrieve_source_calendar self w tr).2 !! i
       = Some (Entry (session_post (_campus_base_url +:+ _campus_login_url)
                        (<["u" := matriculation_number self]>
                           (<["p" := campus_password self]> ∅)))
                 (RResponse req)) →
       requests.history req !! 0%nat = Some first →
       requests.headers first !! "location" = Some location →
       str_contains "loginfailed" location = true →
       (_retrieve_source_calendar self w tr).1 = Raise CampusOfficeAuthorizationError_).
Proof.
  intros H.
  specialize (H Sample.uploader Sample.login_refused_error []
    (Sample.error_page "login.asp?loginfailed=1")
    (requests.mkResponse 302 (<["location" := "login.asp?loginfailed=1"]> ∅) [] "")
    "login.asp?loginfailed=1" 3%nat eq_refl eq_refl eq_refl eq_refl).
  discriminate H.
Qed.

(** C8, as the code has it.  The method does not look at the response to the
    logout: whatever response comes back, the method goes on and returns
    what the parser makes of the export.  An exception raised by the logout
    request itself leaves the method. *)
Theorem logout_response_ignored (self : t) (w : World) (tr : transcript) :
  (∀ i out,
     (_retrieve_source_calendar self w tr).2 !! i
     = Some (Entry (session_get (_campus_base_url +:+ _campus_logout_url))
               (RResponse out)) →
     ∃ start end_ req,
       (_retrieve_source_calendar self w tr).2 !! 5%nat
       = Some (Entry (session_get (_campus_base_url +:+ _campus_cal_url start end_))
                 (RResponse req))
       ∧ (_retrieve_source_calendar self w tr).2 !! 8%nat
         = Some (Entry (logging INFO "Parse calendar") Returned)
       ∧ (_retrieve_source_calendar self w tr).1
         = from_ical w (requests.text_utf8 req))
  ∧ (∀ i e,
       (_retrieve_source_calendar self w tr).2 !! i
       = Some (Entry (session_get (_campus_base_url +:+ _campus_logout_url))
                 (Raised e)) →
       (_retrieve_source_calendar self w tr).1 = Raise e).
Proof.
  remember (_retrieve_source_calendar self w tr) as p eqn:Hp.
  unfold _retrieve_source_calendar in Hp.
  split; intros i x Hi.
  all: run_all Hp; subst p; cbn [after_lines fst snd app] in Hi |- *.
  all: line_cases i; cbn [lookup list_lookup] in Hi; try discriminate Hi.
  all: simplify_eq.
  - eexists _, _, _. split; [reflexivity|]. split; reflexivity.
  - reflexivity.
Qed.

(** The server answers the logout with an internal error. *)
Lemma logout_response_ignored_witness :
  (_retrieve_source_calendar Sample.uploader Sample.logout_error []).1
  = Ok Sample.listing.
Proof.
  destruct (proj1 (logout_response_ignored Sample.uploader Sample.logout_error [])
              7%nat (requests.mkResponse 500 ∅ [] "") eq_refl)
    as (start & end_ & req & _ & _ & Hres).
  exact Hres.
Defined.

(** C8, as the claim has it, fails: when the connection is lost at the
    logout, the method raises, and neither parses nor returns the calendar. *)
Lemma logout_failure_propagates :
  ¬ (∀ (self : t) (w : World) (tr : transcript) (i : nat) (rep : reply),
       (_retrieve_source_calendar self w tr).2 !! i
       = Some (Entry (session_get (_campus_base_url +:+ _campus_logout_url)) rep) →
       (_retrieve_source_calendar self w tr).2 !! 8%nat
       = Some (Entry (logging INFO "Parse calendar") Returned)
       ∧ ∃ start end_ req,
           (_retrieve_source_calendar self w tr).2 !! 5%nat
           = Some (Entry (session_get (_campus_base_url +:+ _campus_cal_url start end_))
                     (RResponse req))
           ∧ (_retrieve_source_calendar self w tr).1
             = from_ical w (requests.text_utf8 req)).
Proof.
  intros H.
  destruct (H Sample.uploader Sample.logout_down [] 7%nat
              (Raised (Exn requests_ConnectionError "Connection aborted")) eq_refl)
    as [Hparse _].
  discriminate Hparse.
Qed.

(** ** The period of a run *)

(** Every export and every query of [upload] is for the period of the
    object. *)
Lemma upload_uses_period (self : t) (w : World) :
  emits w (uses_period w (start_time self) (end_time self)) (upload self).
Proof.
  unfold upload, _retrieve_source_calendar, _retrieve_upload_calendar, _upload_events.
  repeat first
    [ apply emits_bind_lift; intros ? ?
    | emits_step
    | match goal with
      | |- emits _ _ (if ?b then _ else _) => destruct b
      | |- emits _ _ (match ?x with Some _ => _ | None => _ end) => destruct x
      end ].
  all: try exact I.
  all: try (intros rep; exact I).
  - intros rep. left. reflexivity.
  - intros rep. right. right. eauto.
  - intros rep. right. left. reflexivity.
  - intros rep. split; reflexivity.
Qed.

(** C10.  Without bounds the constructor gives the period from one week
    before today to 27 weeks after today, which is ordered, and every export
    and every query of [upload] on that object is for this period. *)
Theorem default_period (today : datetime)
    (mat_number campus_pass cal_url cal_user cal_pass : string) :
  ∃ self,
    __init__ today mat_number campus_pass cal_url cal_user cal_pass None None = Ok self
    ∧ start_time self = Some (today - timedelta_weeks 1)
    ∧ end_time self = Some (today + timedelta_weeks 27)
    ∧ today - timedelta_weeks 1 <= today + timedelta_weeks 27
    ∧ period_ok self
    ∧ ∀ w tr,
        Forall (uses_period w (Some (today - timedelta_weeks 1))
                  (Some (today + timedelta_weeks 27)))
          (upload self w tr).2.
Proof.
  eexists. split; [reflexivity|].
  assert (today + timedelta_weeks (-1) = today - timedelta_weeks 1) as Heq
    by (unfold timedelta_weeks; lia).
  split; [simpl; f_equal; exact Heq|]. split; [reflexivity|].
  split; [unfold timedelta_weeks; lia|].
  split; [unfold period_ok; simpl; unfold timedelta_weeks; lia|].
  intros w tr. rewrite <- Heq.
  exact (upload_uses_period
           (Self (Some (today + timedelta_weeks (-1))) (Some (today + timedelta_weeks 27))
                 mat_number campus_pass cal_url cal_user cal_pass) w tr).
Qed.

(** ** The script and its errors *)

(** An exception of one of the classes the clauses name is handled by one
    error line, and the handler returns. *)
Lemma handlers_report (e : exn) :
  existsb (isinstance_exn e) caught_classes = true →
  ∃ h msg,
    find_handler e handlers = Some h
    ∧ ∀ w tr, h e w tr = (Ok tt, [Entry (logging ERROR msg) Returned]).
Proof.
  destruct e as [c msg]. destruct c; try discriminate; intros _;
    eexists _, _; (split; [reflexivity|]); intros w tr; reflexivity.
Qed.

(** An exception of any other class finds no clause. *)
Lemma handlers_miss (e : exn) :
  existsb (isinstance_exn e) caught_classes = false → find_handler e handlers = None.
Proof. destruct e as [c msg]. destruct c; try discriminate; reflexivity. Qed.

(** The body of the [try] statement writes no error line itself. *)
Lemma script_no_error_line (config_file : string) (w : World) :
  emits w (λ x, is_error_line x = false) (script config_file).
Proof.
  unfold script, upload, _retrieve_source_calendar, _retrieve_upload_calendar,
    _upload_events.
  repeat first
    [ emits_step
    | match goal with
      | |- emits _ _ (if ?b then _ else _) => destruct b
      | |- emits _ _ (match ?x with Some _ => _ | None => _ end) => destruct x
      end ];
    reflexivity.
Qed.

(** X17.  When the body raises an exception of a class the clauses name, the
    script ends without an exception and its transcript is that of the body
    followed by one error line, the only one. *)
Lemma main_reports (prog config_file : string) (w : World) (tr : transcript) (e : exn) :
  (script config_file w tr).1 = Raise e →
  existsb (isinstance_exn e) caught_classes = true →
  ∃ msg,
    main [prog; config_file] w tr
    = (Ok tt, (script config_file w tr).2 ++ [Entry (logging ERROR msg) Returned])
    ∧ filter (λ x, is_error_line x = true) (main [prog; config_file] w tr).2
      = [Entry (logging ERROR msg) Returned].
Proof.
  intros Hraise Hcaught.
  destruct (handlers_report e Hcaught) as (h & msg & Hfind & Hh).
  pose proof (script_no_error_line config_file w tr) as Hlines.
  exists msg. unfold main, try_except.
  destruct (script config_file w tr) as [r out]; simpl in *. subst r.
  rewrite Hfind, Hh. split; [reflexivity|]. cbn [snd].
  rewrite filter_app.
  assert (filter (λ x, is_error_line x = true) out = []) as ->.
  { clear -Hlines. induction Hlines as [|x out Hx _ IH]; [reflexivity|].
    rewrite filter_cons_False by (rewrite Hx; discriminate). exact IH. }
  reflexivity.
Qed.

(** X18.  When the body raises an exception of another class, the exception
    leaves the script and no error line is written. *)
Lemma main_lets_through (prog config_file : string) (w : World) (tr : transcript)
    (e : exn) :
  (script config_file w tr).1 = Raise e →
  existsb (isinstance_exn e) caught_classes = false →
  main [prog; config_file] w tr = (Raise e, (script config_file w tr).2).
Proof.
  intros Hraise Hmiss. pose proof (handlers_miss e Hmiss) as Hfind.
  unfold main, try_except.
  destruct (script config_file w tr) as [r out]; simpl in *. subst r.
  rewrite Hfind. reflexivity.
Qed.

(** C9.  The configuration file has no section [CampusOffice] (here it has
    no section at all): [config.get] raises [NoSectionError], which no clause
    of the script names; the exception leaves the script, and nothing but the
    reading of the file is in the transcript: no error line is logged. *)
Theorem missing_section_uncaught :
  main ["cacaluploader.py"; "uploader.cfg"] Sample.no_sections []
  = (Raise (Exn ConfigParser_NoSectionError "No section: 'CampusOffice'"),
     [Entry (config_read "uploader.cfg") (RConfig ∅)])
  ∧ existsb (isinstance_exn (Exn ConfigParser_NoSectionError "No section: 'CampusOffice'"))
      caught_classes = false.
Proof. split; reflexivity. Qed.



(** * Further properties *)

(** ** The constructor and the setters *)

(** X1.  The constructor returns an object in two cases only: without bounds,
    with the default period; with both bounds, when the start is neither
    after the end nor after the default end (27 weeks from today), with the
    two bounds as the period.  In every other case it raises. *)
Theorem init_accepts_iff (today : datetime)
    (mat_number campus_pass cal_url cal_user cal_pass : string)
    (s e : option datetime) (self : t) :
  __init__ today mat_number campus_pass cal_url cal_user cal_pass s e = Ok self
  ↔ (s = None ∧ e = None
     ∧ self = Self (Some (today + timedelta_weeks (-1)))
                   (Some (today + timedelta_weeks 27))
                   mat_number campus_pass cal_url cal_user cal_pass)
    ∨ (∃ a b, s = Some a ∧ e = Some b ∧ a <= b ∧ a <= today + timedelta_weeks 27
              ∧ self = Self (Some a) (Some b)
                            mat_number campus_pass cal_url cal_user cal_pass).
Proof.
  split.
  - destruct s as [a|], e as [b|]; simpl; try discriminate.
    + unfold __init__, start_time_setter, end_time_setter; simpl.
      destruct (today + timedelta_weeks 27 <? a) eqn:Hlate; simpl; [discriminate|].
      destruct (a >? b) eqn:Hcross; simpl; [discriminate|].
      intros [= <-]. right. exists a, b.
      apply Z.ltb_ge in Hlate. rewrite Z.gtb_ltb in Hcross. apply Z.ltb_ge in Hcross.
      done.
    + intros [= <-]. left. done.
  - intros [(-> & -> & ->)|(a & b & -> & -> & Hab & Ha & ->)].
    + reflexivity.
    + apply init_both_bounds; assumption.
Qed.

(** The period of the first two weeks, at day 0. *)
Lemma init_accepts_iff_witness :
  __init__ 0 "123456" "secret" "https://x/cal/42" "me" "pw"
    (Some (timedelta_weeks 1)) (Some (timedelta_weeks 2))
  = Ok (Self (Some (timedelta_weeks 1)) (Some (timedelta_weeks 2))
             "123456" "secret" "https://x/cal/42" "me" "pw").
Proof.
  apply (proj2 (init_accepts_iff 0 "123456" "secret" "https://x/cal/42" "me" "pw"
                  (Some (timedelta_weeks 1)) (Some (timedelta_weeks 2)) _)).
  right. exists (timedelta_weeks 1), (timedelta_weeks 2).
  repeat split; unfold timedelta_weeks; lia.
Defined.

(** X2.  An assignment that does not raise stores the value, and changes
    nothing else but a bound that was [None], which takes the same value. *)
Theorem setters_store (self self' : t) (v : datetime) :
  (start_time_setter self v = Ok self' →
   start_time self' = Some v
   ∧ end_time self' = Some (default v (end_time self))
   ∧ matriculation_number self' = matriculation_number self
   ∧ campus_password self' = campus_password self
   ∧ calendar_url self' = calendar_url self
   ∧ calendar_user self' = calendar_user self
   ∧ calendar_pass self' = calendar_pass self)
  ∧ (end_time_setter self v = Ok self' →
     end_time self' = Some v
     ∧ start_time self' = Some (default v (start_time self))
     ∧ matriculation_number self' = matriculation_number self
     ∧ campus_password self' = campus_password self
     ∧ calendar_url self' = calendar_url self
     ∧ calendar_user self' = calendar_user self
     ∧ calendar_pass self' = calendar_pass self).
Proof.
  split.
  - unfold start_time_setter, start_time, end_time.
    destruct (_end_time self) as [e|] eqn:He; simpl.
    + destruct (e <? v); simpl; [discriminate|]. intros [= <-]. simpl.
      rewrite He. done.
    + intros [= <-]. done.
  - unfold end_time_setter, start_time, end_time.
    destruct (_start_time self) as [s|] eqn:Hs; simpl.
    + destruct (s >? v); simpl; [discriminate|]. intros [= <-]. simpl.
      rewrite Hs. done.
    + intros [= <-]. done.
Qed.

(** The start of the sample object is moved to day 0. *)
Lemma setters_store_witness :
  start_time (Self (Some 0) (Some (timedelta_weeks 27))
                "123456" "secret" "https://x/cal/42" "me" "pw") = Some 0.
Proof.
  refine (proj1 (proj1 (setters_store Sample.uploader _ 0) _)). reflexivity.
Defined.

(** X3.  Moving a period forward, past its own end, depends on the order of
    the two assignments: the start first raises, the end first and then the
    start gives the new period. *)
Theorem move_period_forward (self : t) (s e s' e' : datetime) :
  start_time self = Some s → end_time self = Some e →
  s <= e → e < s' → s' <= e' →
  start_time_setter self s'
  = Raise (Exn ValueError "Start of time period is after end")
  ∧ result_bind (end_time_setter self e') (λ self, start_time_setter self s')
    = Ok (with_start (with_end self (Some e')) (Some s')).
Proof.
  intros Hs He Hse Hes' Hs'e'. split.
  - unfold start_time_setter. rewrite He.
    assert ((e <? s') = true) as -> by (apply Z.ltb_lt; lia). reflexivity.
  - unfold end_time_setter. rewrite Hs.
    assert ((s >? e') = false) as -> by (rewrite Z.gtb_ltb; apply Z.ltb_ge; lia).
    simpl. unfold start_time_setter, end_time. simpl.
    assert ((e' <? s') = false) as -> by (apply Z.ltb_ge; lia).
    reflexivity.
Qed.

(** The sample period is moved to the weeks 30 to 40. *)
Lemma move_period_forward_witness :
  start_time_setter Sample.uploader (timedelta_weeks 30)
  = Raise (Exn ValueError "Start of time period is after end").
Proof.
  refine (proj1 (move_period_forward Sample.uploader (timedelta_weeks (-1))
    (timedelta_weeks 27) (timedelta_weeks 30) (timedelta_weeks 40) _ _ _ _ _));
    first [reflexivity | unfold timedelta_weeks; lia].
Defined.

(** ** The requests of [_retrieve_source_calendar] *)

(** X4.  Whatever the world answers, the method talks to CampusOffice only:
    its lines are log lines and HTTP requests, and the requests are the first
    ones of a fixed sequence: the landing page, the login with the two
    credentials, the export, the logout.  So the password goes out in the
    login request and nowhere else, and there is no logout without an
    export. *)
Theorem fetch_requests_in_order (self : t) (w : World) (tr : transcript) :
  ∃ start end_,
    http_calls (_retrieve_source_calendar self w tr).2
    `prefix_of`
      [ session_get _campus_base_url;
        session_post (_campus_base_url +:+ _campus_login_url)
          (<["u" := matriculation_number self]> (<["p" := campus_password self]> ∅));
        session_get (_campus_base_url +:+ _campus_cal_url start end_);
        session_get (_campus_base_url +:+ _campus_logout_url) ]
    ∧ Forall (λ x, is_log x || is_http x = true) (_retrieve_source_calendar self w tr).2.
Proof.
  remember (_retrieve_source_calendar self w tr) as p eqn:Hp.
  unfold _retrieve_source_calendar in Hp.
  run_all Hp; subst p; cbn [after_lines fst snd app].
  all: first
    [ (exists "", ""; split; [eexists; reflexivity|repeat constructor]; fail)
    | eexists _, _; split; [eexists; reflexivity|repeat constructor] ].
Qed.

(** X5.  When the request for the landing page raises, or its response has
    an error status, the exception leaves the method and the landing page is
    the only request: the credentials are not sent. *)
Theorem landing_failure_sends_nothing (self : t) (w : World) (tr : transcript) :
  (∀ e,
     (_retrieve_source_calendar self w tr).2 !! 1%nat
     = Some (Entry (session_get _campus_base_url) (Raised e)) →
     (_retrieve_source_calendar self w tr).1 = Raise e
     ∧ http_calls (_retrieve_source_calendar self w tr).2
       = [session_get _campus_base_url])
  ∧ (∀ landing e,
       (_retrieve_source_calendar self w tr).2 !! 1%nat
       = Some (Entry (session_get _campus_base_url) (RResponse landing)) →
       requests.raise_for_status landing = Raise e →
       (_retrieve_source_calendar self w tr).1 = Raise e
       ∧ http_calls (_retrieve_source_calendar self w tr).2
         = [session_get _campus_base_url]).
Proof.
  remember (_retrieve_source_calendar self w tr) as p eqn:Hp.
  unfold _retrieve_source_calendar in Hp.
  split; [intros e Hline|intros landing e Hline Hstatus].
  all: run_all Hp; subst p; cbn [after_lines fst snd app] in Hline |- *.
  all: cbn [lookup list_lookup] in Hline; try discriminate Hline.
  all: injection Hline as ->; simplify_eq.
  all: try (rewrite Hstatus in *; simplify_eq).
  all: split; reflexivity.
Qed.

(** X6.  A login response without a redirect makes the method raise
    [IndexError], and a redirect without a [location] header [KeyError];
    the export is not asked for. *)
Theorem login_without_redirect (self : t) (w : World) (tr : transcript)
    (req : requests.Response) :
  (_retrieve_source_calendar self w tr).2 !! 3%nat
  = Some (Entry (session_post (_campus_base_url +:+ _campus_login_url)
                   (<["u" := matriculation_number self]>
                      (<["p" := campus_password self]> ∅)))
            (RResponse req)) →
  requests.raise_for_status req = Ok tt →
  (requests.history req = [] →
   (_retrieve_source_calendar self w tr).1
   = Raise (Exn IndexError "list index out of range")
   ∧ length (_retrieve_source_calendar self w tr).2 = 4%nat)
  ∧ (∀ first,
       requests.history req !! 0%nat = Some first →
       requests.headers first !! "location" = None →
       (_retrieve_source_calendar self w tr).1 = Raise (Exn KeyError "'location'")
       ∧ length (_retrieve_source_calendar self w tr).2 = 4%nat).
Proof.
  remember (_retrieve_source_calendar self w tr) as p eqn:Hp.
  intros Hline Hstatus.
  unfold _retrieve_source_calendar in Hp.
  split; [intros Hnone|intros first Hfirst Hloc].
  all: run_all Hp; subst p; cbn [after_lines fst snd app] in Hline |- *.
  all: cbn [lookup list_lookup] in Hline; try discriminate Hline.
  all: injection Hline as ->.
  all: rewrite ?Hnone, ?Hfirst in *; cbn [lookup list_lookup] in *; simplify_eq;
    rewrite ?Hloc in *; simplify_eq.
  all: try congruence.
  all: split; reflexivity.
Qed.

(** X7.  When the request for the export raises, or its response has an
    error status, the exception leaves the method at once: the logout is
    never sent, the session stays open. *)
Theorem export_failure_skips_logout (self : t) (w : World) (tr : transcript) :
  (∀ url e,
     (_retrieve_source_calendar self w tr).2 !! 5%nat
     = Some (Entry (session_get url) (Raised e)) →
     (_retrieve_source_calendar self w tr).1 = Raise e
     ∧ Forall (λ x, e_call x ≠ session_get (_campus_base_url +:+ _campus_logout_url))
         (_retrieve_source_calendar self w tr).2)
  ∧ (∀ url req e,
       (_retrieve_source_calendar self w tr).2 !! 5%nat
       = Some (Entry (session_get url) (RResponse req)) →
       requests.raise_for_status req = Raise e →
       (_retrieve_source_calendar self w tr).1 = Raise e
       ∧ Forall (λ x, e_call x ≠ session_get (_campus_base_url +:+ _campus_logout_url))
           (_retrieve_source_calendar self w tr).2).
Proof.
  remember (_retrieve_source_calendar self w tr) as p eqn:Hp.
  unfold _retrieve_source_calendar in Hp.
  split; [intros url e Hline|intros url req e Hline Hstatus].
  all: run_all Hp; subst p; cbn [after_lines fst snd app] in Hline |- *.
  all: cbn [lookup list_lookup] in Hline; try discriminate Hline.
  all: injection Hline as Hurl Hrep; subst url; simplify_eq.
  all: try (rewrite Hstatus in *; simplify_eq).
  all: split; [reflexivity|].
  all: repeat (apply Forall_cons; split; [cbn [e_call]; discriminate|]);
    apply Forall_nil_2.
Qed.

(** X8.  When the method returns a calendar, all four requests have been
    answered, and the calendar is what the parser makes of the text of the
    export response, read as UTF-8. *)
Theorem fetch_returns_parsed (self : t) (w : World) (tr : transcript)
    (cal : icalendar.Component) :
  (_retrieve_source_calendar self w tr).1 = Ok cal →
  ∃ start end_ req,
    format_dmY w (start_time self) = Ok start
    ∧ format_dmY w (end_time self) = Ok end_
    ∧ (_retrieve_source_calendar self w tr).2 !! 5%nat
      = Some (Entry (session_get (_campus_base_url +:+ _campus_cal_url start end_))
                (RResponse req))
    ∧ requests.raise_for_status req = Ok tt
    ∧ from_ical w (requests.text_utf8 req) = Ok cal
    ∧ http_calls (_retrieve_source_calendar self w tr).2
      = [ session_get _campus_base_url;
          session_post (_campus_base_url +:+ _campus_login_url)
            (<["u" := matriculation_number self]> (<["p" := campus_password self]> ∅));
          session_get (_campus_base_url +:+ _campus_cal_url start end_);
          session_get (_campus_base_url +:+ _campus_logout_url) ].
Proof.
  remember (_retrieve_source_calendar self w tr) as p eqn:Hp.
  unfold _retrieve_source_calendar in Hp.
  intros Hok.
  run_all Hp; subst p; cbn [after_lines fst snd app] in Hok |- *;
    try discriminate Hok.
  eexists _, _, _. repeat split; try eassumption; try reflexivity.
  match goal with H : requests.raise_for_status ?r = Ok ?u |- requests.raise_for_status ?r = Ok tt =>
    destruct u; exact H end.
Qed.

(** The landing page cannot be reached. *)
Lemma landing_failure_sends_nothing_witness :
  http_calls (_retrieve_source_calendar Sample.uploader Sample.landing_down []).2
  = [session_get _campus_base_url].
Proof.
  refine (proj2 (proj1 (landing_failure_sends_nothing Sample.uploader
    Sample.landing_down []) (Exn requests_ConnectionError "Connection refused") _)).
  reflexivity.
Defined.

(** The login answers without a redirect. *)
Lemma login_without_redirect_witness :
  (_retrieve_source_calendar Sample.uploader Sample.no_redirect []).1
  = Raise (Exn IndexError "list index out of range").
Proof.
  refine (proj1 (proj1 (login_without_redirect Sample.uploader Sample.no_redirect []
    (requests.mkResponse 200 ∅ [] "") _ _) _)); reflexivity.
Defined.

(** The export times out. *)
Lemma export_failure_skips_logout_witness :
  (_retrieve_source_calendar Sample.uploader Sample.export_down []).1
  = Raise (Exn requests_Timeout "Read timed out").
Proof.
  refine (proj1 (proj1 (export_failure_skips_logout Sample.uploader
    Sample.export_down [])
    (_campus_base_url +:+ _campus_cal_url (pretty (timedelta_weeks (-1)))
                                          (pretty (timedelta_weeks 27)))
    (Exn requests_Timeout "Read timed out") _)).
  reflexivity.
Defined.

(** Everything works. *)
Lemma fetch_returns_parsed_witness :
  ∃ start end_ req,
    format_dmY Sample.fine (start_time Sample.uploader) = Ok start
    ∧ format_dmY Sample.fine (end_time Sample.uploader) = Ok end_
    ∧ (_retrieve_source_calendar Sample.uploader Sample.fine []).2 !! 5%nat
      = Some (Entry (session_get (_campus_base_url +:+ _campus_cal_url start end_))
                (RResponse req))
    ∧ requests.raise_for_status req = Ok tt
    ∧ from_ical Sample.fine (requests.text_utf8 req) = Ok Sample.listing
    ∧ http_calls (_retrieve_source_calendar Sample.uploader Sample.fine []).2
      = [ session_get _campus_base_url;
          session_post (_campus_base_url +:+ _campus_login_url)
            (<["u" := matriculation_number Sample.uploader]>
               (<["p" := campus_password Sample.uploader]> ∅));
          session_get (_campus_base_url +:+ _campus_cal_url start end_);
          session_get (_campus_base_url +:+ _campus_logout_url) ].
Proof.
  apply (fetch_returns_parsed Sample.uploader Sample.fine [] Sample.listing).
  reflexivity.
Defined.

(** ** The outcome of [_retrieve_upload_calendar] and of [_upload_events] *)

(** A calendar the method returns has the configured url, and the method has
    written three lines. *)
Lemma retrieve_upload_calendar_url (self : t) (w : World) (tr : transcript)
    (c : caldav.Calendar) :
  (_retrieve_upload_calendar self w tr).1 = Ok c →
  caldav.url c = calendar_url self
  ∧ length (_retrieve_upload_calendar self w tr).2 = 3%nat.
Proof.
  remember (_retrieve_upload_calendar self w tr) as p eqn:Hp.
  unfold _retrieve_upload_calendar in Hp. intros Hok.
  run_all Hp; subst p; cbn [after_lines fst snd app] in Hok |- *;
    try discriminate Hok.
  injection Hok as ->.
  match goal with H : search_calendar _ ?cs = Some _ |- _ =>
    destruct (search_calendar_Some _ _ _ H) as (pre & post & _ & Hurl & _)
  end.
  split; [exact Hurl|reflexivity].
Qed.

(** X9.  A calendar the method returns comes from the list of the principal,
    has the configured url, and no calendar before it in the list has; the
    transcript is the connection, the log line and the listing. *)
Theorem retrieve_upload_calendar_sound (self : t) (w : World) (tr : transcript)
    (c : caldav.Calendar) :
  (_retrieve_upload_calendar self w tr).1 = Ok c →
  ∃ cs pre post,
    (_retrieve_upload_calendar self w tr).2
    = [ Entry (caldav_Principal (calendar_url self) (calendar_user self)
                 (calendar_pass self)) Returned;
        Entry (logging INFO "Search for caldav calendar") Returned;
        Entry (principal_calendars (calendar_url self) (calendar_user self)
                 (calendar_pass self)) (RCalendars cs) ]
    ∧ cs = pre ++ c :: post
    ∧ caldav.url c = calendar_url self
    ∧ Forall (λ c', caldav.url c' ≠ calendar_url self) pre.
Proof.
  remember (_retrieve_upload_calendar self w tr) as p eqn:Hp.
  unfold _retrieve_upload_calendar in Hp. intros Hok.
  run_all Hp; subst p; cbn [after_lines fst snd app] in Hok |- *;
    try discriminate Hok.
  injection Hok as ->.
  match goal with H : search_calendar _ ?cs = Some _ |- _ =>
    destruct (search_calendar_Some _ _ _ H) as (pre & post & Hcs & Hurl & Hpre);
    exists cs, pre, post
  end.
  match goal with u : unit |- _ => destruct u end. done.
Qed.


(** The three sample calendars. *)
Lemma retrieve_upload_calendar_sound_witness :
  ∃ cs pre post,
    (_retrieve_upload_calendar Sample.uploader Sample.fine []).2
    = [ Entry (caldav_Principal (calendar_url Sample.uploader)
                 (calendar_user Sample.uploader) (calendar_pass Sample.uploader))
          Returned;
        Entry (logging INFO "Search for caldav calendar") Returned;
        Entry (principal_calendars (calendar_url Sample.uploader)
                 (calendar_user Sample.uploader) (calendar_pass Sample.uploader))
          (RCalendars cs) ]
    ∧ cs = pre ++ Sample.cal42 :: post
    ∧ caldav.url Sample.cal42 = calendar_url Sample.uploader
    ∧ Forall (λ c', caldav.url c' ≠ calendar_url Sample.uploader) pre.
Proof.
  apply (retrieve_upload_calendar_sound Sample.uploader Sample.fine [] Sample.cal42).
  reflexivity.
Defined.

Lemma insertions_step (msg : string) (c : caldav.Calendar) (ical : string)
    (rep : reply) (out : transcript) :
  insertions (Entry (logging INFO msg) Returned
              :: Entry (calendar_add_event c ical) rep :: out)
  = (c, ical, rep) :: insertions out.
Proof. reflexivity. Qed.

Arguments insertions : simpl never.

Lemma insertions_app (out out' : transcript) :
  insertions (out ++ out') = insertions out ++ insertions out'.
Proof. apply omap_app. Qed.

Lemma insertions_none (out : transcript) :
  Forall (λ x, is_insertion x = false) out → insertions out = [].
Proof.
  induction 1 as [|x out Hx _ IH]; [reflexivity|].
  change (x :: out) with ([x] ++ out). rewrite insertions_app, IH, app_nil_r.
  unfold is_insertion in Hx. unfold insertions. simpl.
  destruct (e_call x); try reflexivity. discriminate.
Qed.

Lemma insertions_elem (out : transcript) (i : nat) (c : caldav.Calendar)
    (ical : string) (rep : reply) :
  out !! i = Some (Entry (calendar_add_event c ical) rep) →
  (c, ical, rep) ∈ insertions out.
Proof.
  intros Hi. unfold insertions. apply list_elem_of_omap.
  exists (Entry (calendar_add_event c ical) rep). split; [|reflexivity].
  apply list_elem_of_lookup. exists i. exact Hi.
Qed.

(** When the second loop ends, it has sent every event, wrapped in a
    calendar of its own, in the order of the list; when it raises, an
    insertion has raised and the events after it are not sent. *)
Lemma insert_loop_run (w : World) (upload_cal : caldav.Calendar) (n : nat)
    (events : list icalendar.Component) (i : nat) (tr : transcript) :
  match (for_enumerate i events (insert_body upload_cal n) w tr).1 with
  | Ok _ =>
      insertions (for_enumerate i events (insert_body upload_cal n) w tr).2
      = (λ ev, (upload_cal, to_ical w (icalendar.Calendar_with ev), Returned)) <$> events
  | Raise e =>
      ∃ k ev,
        events !! k = Some ev
        ∧ insertions (for_enumerate i events (insert_body upload_cal n) w tr).2
          = ((λ ev, (upload_cal, to_ical w (icalendar.Calendar_with ev), Returned))
               <$> take k events)
            ++ [(upload_cal, to_ical w (icalendar.Calendar_with ev), Raised e)]
  end.
Proof.
  revert i tr. induction events as [|ev events IH]; intros i tr; simpl.
  - reflexivity.
  - cbv [bind].
    destruct (insert_body upload_cal n i ev w tr) as [r0 out0] eqn:Hb.
    assert ((r0 = Ok tt
             ∧ out0 = [Entry (logging INFO (index_of "Upload event " i n)) Returned;
                       Entry (calendar_add_event upload_cal
                                (to_ical w (icalendar.Calendar_with ev))) Returned])
            ∨ (∃ e, r0 = Raise e
                    ∧ out0 = [Entry (logging INFO (index_of "Upload event " i n)) Returned;
                              Entry (calendar_add_event upload_cal
                                       (to_ical w (icalendar.Calendar_with ev)))
                                (Raised e)])) as Hb'.
    { unfold insert_body in Hb. run_M.
      destruct (Calendar_add_event w _ upload_cal _) as [[]|e]; simplify_eq/=; eauto. }
    clear Hb. destruct Hb' as [[-> ->]|(e & -> & ->)].
    + specialize (IH (S i)
        (tr ++ [Entry (logging INFO (index_of "Upload event " i n)) Returned;
                Entry (calendar_add_event upload_cal
                         (to_ical w (icalendar.Calendar_with ev))) Returned])).
      destruct (for_enumerate (S i) events (insert_body upload_cal n) w _)
        as [[[]|e] out]; simpl in *.
      * rewrite (insertions_step (index_of "Upload event " i n) upload_cal
                   (to_ical w (icalendar.Calendar_with ev)) Returned out), IH.
        reflexivity.
      * destruct IH as (k & ev' & Hk & Hins).
        exists (S k), ev'. split; [exact Hk|].
        rewrite (insertions_step (index_of "Upload event " i n) upload_cal
                   (to_ical w (icalendar.Calendar_with ev)) Returned out), Hins.
        reflexivity.
    + simpl. exists 0%nat, ev. split; reflexivity.
Qed.

(** The run of [_upload_events] once the query has returned and no deletion
    has raised: the lines of the two loops, what the first has deleted, and
    what the second has sent. *)
Lemma upload_events_outcome (self : t) (upload_cal : caldav.Calendar)
    (events : list icalendar.Component) (w : World) (tr : transcript) :
  ∃ rep dels rest,
    (_upload_events self upload_cal events w tr).2
    = Entry (logging INFO "Delete all existing events in given time period") Returned
      :: Entry (calendar_date_search upload_cal (start_time self) (end_time self)) rep
      :: dels ++ rest
    ∧ Forall (λ x, is_log x || is_deletion x = true) dels
    ∧ Forall (λ x, is_log x || is_insertion x = true) rest
    ∧ match rep with
      | Raised e =>
          dels = [] ∧ rest = []
          ∧ (_upload_events self upload_cal events w tr).1 = Raise e
      | REvents old =>
          (deletions dels = (λ ev, (ev, Returned)) <$> old
           ∧ match (_upload_events self upload_cal events w tr).1 with
             | Ok _ =>
                 insertions rest
                 = (λ ev, (upload_cal, to_ical w (icalendar.Calendar_with ev), Returned))
                     <$> events
             | Raise e =>
                 ∃ k ev,
                   events !! k = Some ev
                   ∧ insertions rest
                     = ((λ ev, (upload_cal, to_ical w (icalendar.Calendar_with ev),
                                Returned)) <$> take k events)
                       ++ [(upload_cal, to_ical w (icalendar.Calendar_with ev), Raised e)]
             end)
          ∨ (rest = []
             ∧ ∃ e, (_upload_events self upload_cal events w tr).1 = Raise e)
      | _ => False
      end.
Proof.
  unfold _upload_events.
  change (λ (i : nat) (ev : caldav.Event),
            log_info (index_of "Delete event " i ?n);;
            perform (event_delete ev) (λ w tr, Event_delete w tr ev) (λ _, Returned))
    with (delete_body n).
  change (λ (i : nat) (ev : icalendar.Component),
            log_info (index_of "Upload event " i ?n);;
            ical ← lift (λ w, Ok (to_ical w (icalendar.Calendar_with ev)));
            perform (calendar_add_event upload_cal ical)
              (λ w tr, Calendar_add_event w tr upload_cal ical) (λ _, Returned))
    with (insert_body upload_cal n).
  run_M.
  destruct (Calendar_date_search w _ upload_cal _ _) as [old|e]; simpl.
  2:{ exists (Raised e), [], []. repeat split; constructor. }
  match goal with
  | |- context [for_enumerate 0 old _ w ?tr'] =>
      destruct (delete_loop_run w (length old) old 0 tr') as [Hdels Hres];
      destruct (for_enumerate 0 old (delete_body (length old)) w tr') as [[[]|e] dels]
  end; simpl in *.
  - match goal with
    | |- context [for_enumerate 0 events _ w ?tr'] =>
        pose proof (insert_loop_emits w upload_cal (length events) events 0 tr') as Hlines;
        pose proof (insert_loop_run w upload_cal (length events) events 0 tr') as Hins;
        destruct (for_enumerate 0 events (insert_body upload_cal (length events)) w tr')
          as [r adds]
    end; simpl in *.
    exists (REvents old), dels,
      (Entry (logging INFO "Upload all events") Returned :: adds).
    split; [reflexivity|]. split; [exact Hdels|].
    split; [constructor; [reflexivity|exact Hlines]|].
    left. split; [exact Hres|].
    change (Entry (logging INFO "Upload all events") Returned :: adds)
      with ([Entry (logging INFO "Upload all events") Returned] ++ adds).
    destruct r as [[]|e]; rewrite insertions_app; exact Hins.
  - exists (REvents old), dels, []. rewrite app_nil_r.
    split; [reflexivity|]. split; [exact Hdels|]. split; [constructor|].
    right. split; [reflexivity|]. exists e. reflexivity.
Qed.

(** The deletions and the insertions of the whole transcript are those of
    its two parts. *)
Lemma two_phases_readings (first second : entry) (dels rest : transcript) :
  is_mutation first = false → is_mutation second = false →
  Forall (λ x, is_log x || is_deletion x = true) dels →
  Forall (λ x, is_log x || is_insertion x = true) rest →
  deletions (first :: second :: dels ++ rest) = deletions dels
  ∧ insertions (first :: second :: dels ++ rest) = insertions rest.
Proof.
  intros Hfirst Hsecond Hdels Hrest.
  change (first :: second :: dels ++ rest) with ([first; second] ++ dels ++ rest).
  rewrite !deletions_app, !insertions_app.
  apply orb_false_iff in Hfirst as [Hd1 Hi1].
  apply orb_false_iff in Hsecond as [Hd2 Hi2].
  rewrite (deletions_none [first; second]) by (repeat constructor; assumption).
  rewrite (insertions_none [first; second]) by (repeat constructor; assumption).
  rewrite (deletions_none rest)
    by (eapply Forall_impl; [exact Hrest|apply log_or_insertion]).
  rewrite (insertions_none dels)
    by (eapply Forall_impl; [exact Hdels|apply log_or_deletion]).
  rewrite app_nil_r. done.
Qed.

(** What [_upload_events] has done when it returns. *)
Lemma upload_events_returns (self : t) (upload_cal : caldav.Calendar)
    (events : list icalendar.Component) (w : World) (tr : transcript) :
  (_upload_events self upload_cal events w tr).1 = Ok tt →
  ∃ old,
    (_upload_events self upload_cal events w tr).2 !! 1%nat
    = Some (Entry (calendar_date_search upload_cal (start_time self) (end_time self))
              (REvents old))
    ∧ deletions (_upload_events self upload_cal events w tr).2
      = (λ ev, (ev, Returned)) <$> old
    ∧ insertions (_upload_events self upload_cal events w tr).2
      = (λ ev, (upload_cal, to_ical w (icalendar.Calendar_with ev), Returned)) <$> events.
Proof.
  destruct (upload_events_outcome self upload_cal events w tr)
    as (rep & dels & rest & Hout & Hdels & Hrest & Hrep).
  intros Hok. rewrite Hout.
  destruct (two_phases_readings
    (Entry (logging INFO "Delete all existing events in given time period") Returned)
    (Entry (calendar_date_search upload_cal (start_time self) (end_time self)) rep)
    dels rest eq_refl eq_refl Hdels Hrest) as [-> ->].
  rewrite Hok in Hrep.
  destruct rep as [e| | | | |old]; try done.
  { destruct Hrep as (_ & _ & He). discriminate He. }
  destruct Hrep as [[Hd Hi]|[_ [e He]]]; [|discriminate He].
  exists old. done.
Qed.

(** X10.  When [_upload_events] returns, the destination has been asked to
    delete every event the query returned, in the order of the query, and
    then to add every given event, each wrapped in a calendar of its own, in
    the order of the list, to the calendar that was searched; none of these
    calls raised.  With no events to upload the period is just emptied. *)
Theorem upload_events_success (self : t) (upload_cal : caldav.Calendar)
    (events : list icalendar.Component) (w : World) (tr : transcript) :
  (_upload_events self upload_cal events w tr).1 = Ok tt →
  ∃ old,
    (_upload_events self upload_cal events w tr).2 !! 1%nat
    = Some (Entry (calendar_date_search upload_cal (start_time self) (end_time self))
              (REvents old))
    ∧ deletions (_upload_events self upload_cal events w tr).2
      = (λ ev, (ev, Returned)) <$> old
    ∧ insertions (_upload_events self upload_cal events w tr).2
      = (λ ev, (upload_cal, to_ical w (icalendar.Calendar_with ev), Returned)) <$> events.
Proof.
  intros Hok.
  destruct (upload_events_returns self upload_cal events w tr Hok)
    as (old & Hquery & Hdeleted & Hadded).
  exists old. split; [exact Hquery|]. split; [exact Hdeleted|exact Hadded].
Qed.

(** Two events are deleted, the two events of the listing are added. *)
Lemma upload_events_success_witness :
  ∃ old,
    (_upload_events Sample.uploader Sample.cal42 (source_events Sample.listing)
       Sample.fine []).2 !! 1%nat
    = Some (Entry (calendar_date_search Sample.cal42 (start_time Sample.uploader)
                     (end_time Sample.uploader)) (REvents old))
    ∧ deletions (_upload_events Sample.uploader Sample.cal42
                   (source_events Sample.listing) Sample.fine []).2
      = (λ ev, (ev, Returned)) <$> old
    ∧ insertions (_upload_events Sample.uploader Sample.cal42
                    (source_events Sample.listing) Sample.fine []).2
      = (λ ev, (Sample.cal42, to_ical Sample.fine (icalendar.Calendar_with ev), Returned))
          <$> source_events Sample.listing.
Proof.
  apply (upload_events_success Sample.uploader Sample.cal42
           (source_events Sample.listing) Sample.fine []).
  reflexivity.
Defined.

(** X11.  When an insertion raises, its exception leaves the method; by then
    every event the query returned has been deleted, the events before the
    failing one have been added and stay added, and the events after it are
    not sent. *)
Theorem insertion_failure_state (self : t) (upload_cal : caldav.Calendar)
    (events : list icalendar.Component) (w : World) (tr : transcript)
    (i : nat) (c : caldav.Calendar) (ical : string) (e : exn) :
  (_upload_events self upload_cal events w tr).2 !! i
  = Some (Entry (calendar_add_event c ical) (Raised e)) →
  (_upload_events self upload_cal events w tr).1 = Raise e
  ∧ ∃ old k ev,
      (_upload_events self upload_cal events w tr).2 !! 1%nat
      = Some (Entry (calendar_date_search upload_cal (start_time self) (end_time self))
                (REvents old))
      ∧ deletions (_upload_events self upload_cal events w tr).2
        = (λ ev, (ev, Returned)) <$> old
      ∧ events !! k = Some ev
      ∧ c = upload_cal ∧ ical = to_ical w (icalendar.Calendar_with ev)
      ∧ insertions (_upload_events self upload_cal events w tr).2
        = ((λ ev, (upload_cal, to_ical w (icalendar.Calendar_with ev), Returned))
             <$> take k events)
          ++ [(upload_cal, ical, Raised e)].
Proof.
  destruct (upload_events_outcome self upload_cal events w tr)
    as (rep & dels & rest & Hout & Hdels & Hrest & Hrep).
  rewrite Hout. intros Hi.
  destruct (two_phases_readings
    (Entry (logging INFO "Delete all existing events in given time period") Returned)
    (Entry (calendar_date_search upload_cal (start_time self) (end_time self)) rep)
    dels rest eq_refl eq_refl Hdels Hrest) as [-> ->].
  destruct i as [|[|i]]; simpl in Hi; [by simplify_eq..|].
  apply lookup_app_Some in Hi as [Hi|[_ Hi]].
  { apply (proj1 (Forall_lookup _ _) Hdels) in Hi. discriminate. }
  apply insertions_elem in Hi.
  assert (∀ l : list icalendar.Component,
            (c, ical, Raised e)
            ∉ (λ ev, (upload_cal, to_ical w (icalendar.Calendar_with ev), Returned)) <$> l)
    as Hnot.
  { intros l Hin. apply list_elem_of_fmap in Hin as (ev' & Heq & _). discriminate. }
  destruct rep as [e'| | | | |old]; try done.
  { destruct Hrep as (_ & -> & _). inversion Hi. }
  destruct Hrep as [[Hd Hins]|[-> _]]; [|inversion Hi].
  destruct (_upload_events self upload_cal events w tr).1 as [[]|e'].
  { rewrite Hins in Hi. destruct (Hnot _ Hi). }
  destruct Hins as (k & ev & Hk & Hins).
  rewrite Hins in Hi. apply elem_of_app in Hi as [Hi|Hi]; [destruct (Hnot _ Hi)|].
  apply list_elem_of_singleton in Hi. injection Hi as -> -> ->.
  split; [reflexivity|]. exists old, k, ev. rewrite Hins. done.
Qed.

(** The second insertion is refused: line 10 of the transcript. *)
Lemma insertion_failure_state_witness :
  (_upload_events Sample.uploader Sample.cal42 (source_events Sample.listing)
     Sample.put_down []).1
  = Raise (Exn caldav_PutError "PUT failed").
Proof.
  refine (proj1 (insertion_failure_state Sample.uploader Sample.cal42
    (source_events Sample.listing) Sample.put_down [] 10 Sample.cal42 "Algebra"
    (Exn caldav_PutError "PUT failed") _)).
  reflexivity.
Defined.

(** ** How [upload] composes its three steps *)

(** The lines of the first step are log lines and HTTP requests. *)
Lemma fetch_lines (self : t) (w : World) :
  emits w (λ x, is_log x || is_http x = true) (_retrieve_source_calendar self).
Proof.
  unfold _retrieve_source_calendar.
  repeat first
    [ emits_step
    | match goal with
      | |- emits _ _ (if ?b then _ else _) => destruct b
      end ];
    reflexivity.
Qed.

(** The lines of the second step are the connection, a log line and the
    listing. *)
Lemma resolve_lines (self : t) (w : World) :
  emits w (λ x, is_mutation x = false
                ∧ (∀ c s e, e_call x ≠ calendar_date_search c s e))
    (_retrieve_upload_calendar self).
Proof.
  unfold _retrieve_upload_calendar.
  repeat first
    [ emits_step
    | match goal with
      | |- emits _ _ (match ?x with Some _ => _ | None => _ end) => destruct x
      end ];
    try intros rep; split; first [reflexivity | intros; discriminate].
Qed.

(** The queries and the insertions of the third step are on the calendar it
    is given, the query with the bounds of the object. *)
Lemma upload_events_lines (self : t) (c : caldav.Calendar)
    (events : list icalendar.Component) (w : World) :
  emits w (on_calendar self c) (_upload_events self c events).
Proof.
  unfold _upload_events. repeat emits_step; try exact I; intros rep; done.
Qed.

(** The run of [upload], by the outcome of its first two steps. *)
Lemma upload_run (self : t) (w : World) (tr : transcript) :
  upload self w tr
  = match _retrieve_source_calendar self w tr with
    | (Raise e, out1) => (Raise e, out1)
    | (Ok source_cal, out1) =>
        match _retrieve_upload_calendar self w (tr ++ out1) with
        | (Raise e, out2) => (Raise e, out1 ++ out2)
        | (Ok upload_cal, out2) =>
            after_lines (out1 ++ out2)
              (_upload_events self upload_cal (source_events source_cal) w
                 (tr ++ out1 ++ out2))
        end
    end.
Proof.
  unfold upload. run_M.
  destruct (_retrieve_source_calendar self w tr) as [[source_cal|e] out1];
    [|reflexivity].
  destruct (_retrieve_upload_calendar self w (tr ++ out1)) as [[upload_cal|e] out2];
    [|reflexivity].
  rewrite <- app_assoc.
  destruct (_upload_events self upload_cal (source_events source_cal) w _) as [r out3].
  unfold after_lines. simpl. rewrite <- app_assoc. reflexivity.
Qed.

Lemma http_not_caldav (x : entry) :
  is_log x || is_http x = true → is_caldav x = false.
Proof. unfold is_log, is_http, is_caldav. destruct (e_call x); done. Qed.

Lemma http_not_mutation (x : entry) :
  is_log x || is_http x = true → is_mutation x = false.
Proof.
  unfold is_log, is_http, is_mutation, is_deletion, is_insertion.
  destruct (e_call x); done.
Qed.

(** X12.  When the first step raises, [upload] raises the same exception and
    stops there: nothing has gone to the CalDAV server, the destination
    calendar is as it was. *)
Theorem upload_source_failure (self : t) (w : World) (tr : transcript) (e : exn) :
  (_retrieve_source_calendar self w tr).1 = Raise e →
  upload self w tr = (Raise e, (_retrieve_source_calendar self w tr).2)
  ∧ Forall (λ x, is_caldav x = false) (upload self w tr).2.
Proof.
  intros Hraise. rewrite upload_run.
  pose proof (fetch_lines self w tr) as Hlines.
  destruct (_retrieve_source_calendar self w tr) as [[source_cal|e'] out1];
    simpl in *; [discriminate|].
  injection Hraise as ->. split; [reflexivity|]. simpl.
  eapply Forall_impl; [exact Hlines|]. apply http_not_caldav.
Qed.

(** The login is refused. *)
Lemma upload_source_failure_witness :
  Forall (λ x, is_caldav x = false) (upload Sample.uploader Sample.login_refused []).2.
Proof.
  refine (proj2 (upload_source_failure Sample.uploader Sample.login_refused []
                   CampusOfficeAuthorizationError_ _)).
  reflexivity.
Defined.

(** X13.  A deletion or an insertion in the transcript of [upload] means
    that the export has been fetched and parsed and that the calendar with
    the configured url has been found: before that, [upload] changes
    nothing. *)
Theorem upload_mutation_needs_both (self : t) (w : World) (tr : transcript)
    (i : nat) (x : entry) :
  (upload self w tr).2 !! i = Some x → is_mutation x = true →
  ∃ source_cal upload_cal,
    (_retrieve_source_calendar self w tr).1 = Ok source_cal
    ∧ (_retrieve_upload_calendar self w
         (tr ++ (_retrieve_source_calendar self w tr).2)).1 = Ok upload_cal
    ∧ caldav.url upload_cal = calendar_url self
    ∧ (length (_retrieve_source_calendar self w tr).2 + 3 ≤ i)%nat.
Proof.
  rewrite upload_run.
  pose proof (fetch_lines self w tr) as Hfetch.
  destruct (_retrieve_source_calendar self w tr) as [[source_cal|e] out1]; simpl in *.
  2:{ intros Hi Hx. apply (proj1 (Forall_lookup _ _) Hfetch) in Hi.
      apply http_not_mutation in Hi. congruence. }
  pose proof (resolve_lines self w (tr ++ out1)) as Hresolve.
  pose proof (retrieve_upload_calendar_url self w (tr ++ out1)) as Hreturns.
  destruct (_retrieve_upload_calendar self w (tr ++ out1)) as [[upload_cal|e] out2];
    simpl in *.
  2:{ intros Hi Hx. apply lookup_app_Some in Hi as [Hi|[_ Hi]].
      - apply (proj1 (Forall_lookup _ _) Hfetch) in Hi.
        apply http_not_mutation in Hi. congruence.
      - apply (proj1 (Forall_lookup _ _) Hresolve) in Hi as [Hi _]. congruence. }
  destruct (Hreturns upload_cal eq_refl) as [Hurl Hthree].
  intros Hi Hx. exists source_cal, upload_cal.
  split; [reflexivity|]. split; [reflexivity|]. split; [exact Hurl|].
  rewrite <- app_assoc in Hi.
  apply lookup_app_Some in Hi as [Hi|[Hlen1 Hi]].
  { apply (proj1 (Forall_lookup _ _) Hfetch) in Hi.
    apply http_not_mutation in Hi. congruence. }
  apply lookup_app_Some in Hi as [Hi|[Hlen2 Hi]].
  { apply (proj1 (Forall_lookup _ _) Hresolve) in Hi as [Hi _]. congruence. }
  lia.
Qed.

(** The first deletion of the sample run is line 15. *)
Lemma upload_mutation_needs_both_witness :
  ∃ source_cal upload_cal,
    (_retrieve_source_calendar Sample.uploader Sample.fine []).1 = Ok source_cal
    ∧ (_retrieve_upload_calendar Sample.uploader Sample.fine
         ([] ++ (_retrieve_source_calendar Sample.uploader Sample.fine []).2)).1
      = Ok upload_cal
    ∧ caldav.url upload_cal = calendar_url Sample.uploader
    ∧ (length (_retrieve_source_calendar Sample.uploader Sample.fine []).2 + 3 ≤ 15)%nat.
Proof.
  apply (upload_mutation_needs_both Sample.uploader Sample.fine [] 15
           (Entry (event_delete Sample.old1) Returned)); reflexivity.
Defined.

(** X14.  When [upload] returns, the export has been parsed to a calendar,
    the calendar with the configured url has been found, every event the
    query returned has been deleted from it, and the events of the parsed
    calendar, and nothing else of it, have been added to it, in their
    order. *)
Theorem upload_success (self : t) (w : World) (tr : transcript) :
  (upload self w tr).1 = Ok tt →
  ∃ source_cal upload_cal old i,
    (_retrieve_source_calendar self w tr).1 = Ok source_cal
    ∧ caldav.url upload_cal = calendar_url self
    ∧ (upload self w tr).2 !! i
      = Some (Entry (calendar_date_search upload_cal (start_time self) (end_time self))
                (REvents old))
    ∧ deletions (upload self w tr).2 = (λ ev, (ev, Returned)) <$> old
    ∧ insertions (upload self w tr).2
      = (λ ev, (upload_cal, to_ical w (icalendar.Calendar_with ev), Returned))
          <$> source_events source_cal.
Proof.
  rewrite upload_run.
  pose proof (fetch_lines self w tr) as Hfetch.
  destruct (_retrieve_source_calendar self w tr) as [[source_cal|e] out1]; simpl in *;
    [|discriminate].
  pose proof (resolve_lines self w (tr ++ out1)) as Hresolve.
  pose proof (retrieve_upload_calendar_url self w (tr ++ out1)) as Hreturns.
  destruct (_retrieve_upload_calendar self w (tr ++ out1)) as [[upload_cal|e] out2];
    simpl in *; [|discriminate].
  destruct (Hreturns upload_cal eq_refl) as [Hurl _].
  intros Hok.
  destruct (upload_events_returns self upload_cal (source_events source_cal) w
              (tr ++ out1 ++ out2) Hok) as (old & Hquery & Hdel & Hins).
  exists source_cal, upload_cal, old, (length (out1 ++ out2) + 1)%nat.
  split; [reflexivity|]. split; [exact Hurl|].
  assert (Forall (λ x, is_mutation x = false) (out1 ++ out2)) as Hquiet.
  { apply Forall_app. split.
    - eapply Forall_impl; [exact Hfetch|]. apply http_not_mutation.
    - eapply Forall_impl; [exact Hresolve|]. intros x [Hx _]. exact Hx. }
  split; [|split].
  - rewrite lookup_app_r by lia.
    replace (length (out1 ++ out2) + 1 - length (out1 ++ out2))%nat with 1%nat by lia.
    exact Hquery.
  - rewrite deletions_app, Hdel, deletions_none; [reflexivity|].
    eapply Forall_impl; [exact Hquiet|]. intros x Hx.
    apply orb_false_iff in Hx as [Hx _]. exact Hx.
  - rewrite insertions_app, Hins, insertions_none; [reflexivity|].
    eapply Forall_impl; [exact Hquiet|]. intros x Hx.
    apply orb_false_iff in Hx as [_ Hx]. exact Hx.
Qed.

(** The sample run. *)
Lemma upload_success_witness :
  ∃ source_cal upload_cal old i,
    (_retrieve_source_calendar Sample.uploader Sample.fine []).1 = Ok source_cal
    ∧ caldav.url upload_cal = calendar_url Sample.uploader
    ∧ (upload Sample.uploader Sample.fine []).2 !! i
      = Some (Entry (calendar_date_search upload_cal (start_time Sample.uploader)
                       (end_time Sample.uploader)) (REvents old))
    ∧ deletions (upload Sample.uploader Sample.fine []).2 = (λ ev, (ev, Returned)) <$> old
    ∧ insertions (upload Sample.uploader Sample.fine []).2
      = (λ ev, (upload_cal, to_ical Sample.fine (icalendar.Calendar_with ev), Returned))
          <$> source_events source_cal.
Proof.
  apply (upload_success Sample.uploader Sample.fine []). reflexivity.
Defined.

(** X15.  Every query and every insertion of [upload] is on a calendar with
    the configured url, and every query is for the two bounds of the object,
    whatever they are. *)
Theorem upload_targets_configured_calendar (self : t) (w : World) (tr : transcript) :
  Forall (on_configured_calendar self) (upload self w tr).2.
Proof.
  rewrite upload_run.
  pose proof (fetch_lines self w tr) as Hfetch.
  assert (∀ l, Forall (λ x, is_log x || is_http x = true) l →
               Forall (on_configured_calendar self) l) as Hhttp.
  { intros l Hl. eapply Forall_impl; [exact Hl|]. intros x Hx.
    unfold on_configured_calendar, is_log, is_http in *. destruct (e_call x); done. }
  destruct (_retrieve_source_calendar self w tr) as [[source_cal|e] out1]; simpl in *;
    [|exact (Hhttp _ Hfetch)].
  pose proof (resolve_lines self w (tr ++ out1)) as Hresolve.
  pose proof (retrieve_upload_calendar_url self w (tr ++ out1)) as Hreturns.
  assert (∀ l, Forall (λ x, is_mutation x = false
                            ∧ (∀ c s e, e_call x ≠ calendar_date_search c s e)) l →
               Forall (on_configured_calendar self) l) as Hquiet.
  { intros l Hl. eapply Forall_impl; [exact Hl|]. intros x [Hm Hq].
    unfold on_configured_calendar, is_mutation, is_deletion, is_insertion in *.
    destruct (e_call x); try done. destruct (Hq _ _ _ eq_refl). }
  destruct (_retrieve_upload_calendar self w (tr ++ out1)) as [[upload_cal|e] out2];
    simpl in *.
  2:{ apply Forall_app. split; [exact (Hhttp _ Hfetch)|exact (Hquiet _ Hresolve)]. }
  destruct (Hreturns upload_cal eq_refl) as [Hurl _].
  pose proof (upload_events_lines self upload_cal (source_events source_cal) w
                (tr ++ out1 ++ out2)) as Hlines.
  rewrite <- app_assoc. apply Forall_app. split; [exact (Hhttp _ Hfetch)|].
  apply Forall_app. split; [exact (Hquiet _ Hresolve)|].
  eapply Forall_impl; [exact Hlines|]. intros x.
  unfold on_calendar, on_configured_calendar. destruct (e_call x); try done.
  - intros (-> & -> & ->). done.
  - intros ->. done.
Qed.

(** ** The command line and the configuration *)



(** A refused login is reported. *)
Lemma main_reports_witness :
  ∃ msg,
    main ["cacaluploader.py"; "uploader.cfg"] Sample.login_refused []
    = (Ok tt, (script "uploader.cfg" Sample.login_refused []).2
              ++ [Entry (logging ERROR msg) Returned])
    ∧ filter (λ x, is_error_line x = true)
        (main ["cacaluploader.py"; "uploader.cfg"] Sample.login_refused []).2
      = [Entry (logging ERROR msg) Returned].
Proof.
  apply (main_reports "cacaluploader.py" "uploader.cfg" Sample.login_refused []
           CampusOfficeAuthorizationError_); reflexivity.
Defined.

(** The [IndexError] of a login without a redirect is not reported. *)
Lemma main_lets_through_witness :
  main ["cacaluploader.py"; "uploader.cfg"] Sample.no_redirect []
  = (Raise (Exn IndexError "list index out of range"),
     (script "uploader.cfg" Sample.no_redirect []).2).
Proof.
  apply (main_lets_through "cacaluploader.py" "uploader.cfg" Sample.no_redirect []);
    reflexivity.
Defined.


Lemma run_assoc {A B C : Type} (m : M A) (g : A → M B) (f : B → M C)
    (w : World) (tr : transcript) :
  ((m ≫= g) ≫= f) w tr = (m ≫= (λ x, g x ≫= f)) w tr.
Proof.
  run_M. destruct (m w tr) as [[a|e] out1]; [|reflexivity].
  destruct (g a w (tr ++ out1)) as [[b|e] out2]; [|reflexivity].
  rewrite <- app_assoc.
  destruct (f b w (tr ++ out1 ++ out2)) as [r out3].
  rewrite <- app_assoc. reflexivity.
Qed.

(** X20.  With the five options and no section [Period], the script reads
    the file and then runs [upload] on the object built from the five
    options with the default period around today. *)
Theorem script_default_period (config_file : string) (w : World) (tr : transcript)
    (config : gmap string (gmap string string))
    (mat_number campus_pass cal_url cal_user cal_pass : string) :
  ConfigParser_read w tr config_file = Ok config →
  ConfigParser.get config "CampusOffice" "mat" = Ok mat_number →
  ConfigParser.get config "CampusOffice" "pass" = Ok campus_pass →
  ConfigParser.get config "CalDAV" "url" = Ok cal_url →
  ConfigParser.get config "CalDAV" "user" = Ok cal_user →
  ConfigParser.get config "CalDAV" "pass" = Ok cal_pass →
  ConfigParser.has_section config "Period" = false →
  script config_file w tr
  = after_lines [Entry (config_read config_file) (RConfig config)]
      (upload (Self (Some (datetime_today w + timedelta_weeks (-1)))
                    (Some (datetime_today w + timedelta_weeks 27))
                    mat_number campus_pass cal_url cal_user cal_pass)
         w (tr ++ [Entry (config_read config_file) (RConfig config)])).
Proof.
  intros Hread Hmat Hcp Hurl Huser Hpass Hperiod.
  remember (script config_file w tr) as p eqn:Hp. unfold script in Hp.
  run_step Hp. rewrite Hread in Hp. cbv beta iota in Hp.
  run_step Hp. rewrite Hmat in Hp. cbv beta iota in Hp.
  run_step Hp. rewrite Hcp in Hp. cbv beta iota in Hp.
  run_step Hp. rewrite Hurl in Hp. cbv beta iota in Hp.
  run_step Hp. rewrite Huser in Hp. cbv beta iota in Hp.
  run_step Hp. rewrite Hpass in Hp. cbv beta iota in Hp.
  rewrite Hperiod in Hp. do 2 run_step Hp.
  exact Hp.
Qed.

(** The sample configuration. *)
Lemma script_default_period_witness :
  script "uploader.cfg" Sample.fine []
  = after_lines [Entry (config_read "uploader.cfg") (RConfig Sample.config)]
      (upload Sample.uploader Sample.fine
         [Entry (config_read "uploader.cfg") (RConfig Sample.config)]).
Proof.
  apply (script_default_period "uploader.cfg" Sample.fine [] Sample.config
           "123456" "secret" "https://x/cal/42" "me" "pw"); reflexivity.
Defined.

(** X21.  With the five options and a section [Period] whose two dates can
    be read, the script builds the object with the two dates as bounds; when
    the constructor raises, nothing follows the reading of the file, and
    otherwise [upload] runs on the object. *)
Theorem script_with_period (config_file : string) (w : World) (tr : transcript)
    (config : gmap string (gmap string string))
    (mat_number campus_pass cal_url cal_user cal_pass start end_ : string)
    (a b : datetime) :
  ConfigParser_read w tr config_file = Ok config →
  ConfigParser.get config "CampusOffice" "mat" = Ok mat_number →
  ConfigParser.get config "CampusOffice" "pass" = Ok campus_pass →
  ConfigParser.get config "CalDAV" "url" = Ok cal_url →
  ConfigParser.get config "CalDAV" "user" = Ok cal_user →
  ConfigParser.get config "CalDAV" "pass" = Ok cal_pass →
  ConfigParser.has_section config "Period" = true →
  ConfigParser.get config "Period" "start" = Ok start →
  strptime_Ymd w start = Ok a →
  ConfigParser.get config "Period" "end" = Ok end_ →
  strptime_Ymd w end_ = Ok b →
  script config_file w tr
  = after_lines [Entry (config_read config_file) (RConfig config)]
      match __init__ (datetime_today w) mat_number campus_pass cal_url cal_user
              cal_pass (Some a) (Some b) with
      | Ok self => upload self w (tr ++ [Entry (config_read config_file) (RConfig config)])
      | Raise e => (Raise e, [])
      end.
Proof.
  intros Hread Hmat Hcp Hurl Huser Hpass Hperiod Hstart Ha Hend Hb.
  remember (script config_file w tr) as p eqn:Hp. unfold script in Hp.
  run_step Hp. rewrite Hread in Hp. cbv beta iota in Hp.
  run_step Hp. rewrite Hmat in Hp. cbv beta iota in Hp.
  run_step Hp. rewrite Hcp in Hp. cbv beta iota in Hp.
  run_step Hp. rewrite Hurl in Hp. cbv beta iota in Hp.
  run_step Hp. rewrite Huser in Hp. cbv beta iota in Hp.
  run_step Hp. rewrite Hpass in Hp. cbv beta iota in Hp.
  rewrite Hperiod in Hp.
  rewrite run_assoc in Hp. run_step Hp. rewrite Hstart in Hp. cbv beta iota in Hp.
  rewrite run_assoc in Hp. run_step Hp. rewrite Ha in Hp. cbv beta iota in Hp.
  rewrite run_assoc in Hp. run_step Hp. rewrite Hend in Hp. cbv beta iota in Hp.
  rewrite run_assoc in Hp. run_step Hp. rewrite Hb in Hp. cbv beta iota in Hp.
  do 2 run_step Hp. cbn [fst snd] in Hp.
  exact Hp.
Qed.

(** The period of the weeks 1 and 2. *)
Lemma script_with_period_witness :
  script "uploader.cfg" (Sample.with_period Sample.config_period) []
  = after_lines [Entry (config_read "uploader.cfg") (RConfig Sample.config_period)]
      match __init__ 0 "123456" "secret" "https://x/cal/42" "me" "pw"
              (Some (timedelta_weeks 1)) (Some (timedelta_weeks 2)) with
      | Ok self =>
          upload self (Sample.with_period Sample.config_period)
            ([] ++ [Entry (config_read "uploader.cfg") (RConfig Sample.config_period)])
      | Raise e => (Raise e, [])
      end.
Proof.
  apply (script_with_period "uploader.cfg" (Sample.with_period Sample.config_period) []
           Sample.config_period "123456" "secret" "https://x/cal/42" "me" "pw"
           "1970-01-08" "1970-01-15"); reflexivity.
Defined.

(** X22.  A date of the section [Period] that cannot be read is reported in
    one error line, with the text of the [ValueError], right after the
    reading of the file: nothing has gone over the network. *)
Theorem malformed_date_reported (prog config_file : string) (w : World)
    (tr : transcript) (config : gmap string (gmap string string))
    (mat_number campus_pass cal_url cal_user cal_pass start : string) (e : exn) :
  ConfigParser_read w tr config_file = Ok config →
  ConfigParser.get config "CampusOffice" "mat" = Ok mat_number →
  ConfigParser.get config "CampusOffice" "pass" = Ok campus_pass →
  ConfigParser.get config "CalDAV" "url" = Ok cal_url →
  ConfigParser.get config "CalDAV" "user" = Ok cal_user →
  ConfigParser.get config "CalDAV" "pass" = Ok cal_pass →
  ConfigParser.has_section config "Period" = true →
  ConfigParser.get config "Period" "start" = Ok start →
  strptime_Ymd w start = Raise e →
  exn_class e = ValueError →
  main [prog; config_file] w tr
  = (Ok tt,
     [ Entry (config_read config_file) (RConfig config);
       Entry (logging ERROR ("Could not parse time period: " +:+ exn_str e)) Returned ]).
Proof.
  intros Hread Hmat Hcp Hurl Huser Hpass Hperiod Hstart Ha Hclass.
  assert (script config_file w tr
          = (Raise e, [Entry (config_read config_file) (RConfig config)])) as Hscript.
  { remember (script config_file w tr) as p eqn:Hp. unfold script in Hp.
    run_step Hp. rewrite Hread in Hp. cbv beta iota in Hp.
    run_step Hp. rewrite Hmat in Hp. cbv beta iota in Hp.
    run_step Hp. rewrite Hcp in Hp. cbv beta iota in Hp.
    run_step Hp. rewrite Hurl in Hp. cbv beta iota in Hp.
    run_step Hp. rewrite Huser in Hp. cbv beta iota in Hp.
    run_step Hp. rewrite Hpass in Hp. cbv beta iota in Hp.
    rewrite Hperiod in Hp.
    rewrite run_assoc in Hp. run_step Hp. rewrite Hstart in Hp. cbv beta iota in Hp.
    rewrite run_assoc in Hp. run_step Hp. rewrite Ha in Hp. cbv beta iota in Hp.
    exact Hp. }
  unfold main, try_except. rewrite Hscript.
  destruct e as [c msg]. simpl in Hclass. subst c. reflexivity.
Qed.

(** The 31st of February. *)
Lemma malformed_date_reported_witness :
  main ["cacaluploader.py"; "uploader.cfg"] (Sample.with_period Sample.config_bad_date) []
  = (Ok tt,
     [ Entry (config_read "uploader.cfg") (RConfig Sample.config_bad_date);
       Entry (logging ERROR
                ("Could not parse time period: "
                 +:+ "time data does not match format '%Y-%m-%d'")) Returned ]).
Proof.
  apply (malformed_date_reported "cacaluploader.py" "uploader.cfg"
           (Sample.with_period Sample.config_bad_date) [] Sample.config_bad_date
           "123456" "secret" "https://x/cal/42" "me" "pw" "1970-02-31"
           (Exn ValueError "time data does not match format '%Y-%m-%d'"));
    reflexivity.
Defined.

(** X23.  An exception of the requests package, of whatever subclass of
    [RequestException], and a refused login are reported in the same way: one
    error line that starts with ['Could not retrieve CampusOffice calendar: ']
    and ends with the text of the exception; the script then ends without an
    exception. *)
Theorem source_errors_reported (prog config_file : string) (w : World)
    (tr : transcript) (e : exn) :
  (script config_file w tr).1 = Raise e →
  isinstance_exn e requests_RequestException
  || isinstance_exn e CampusOfficeAuthorizationError = true →
  main [prog; config_file] w tr
  = (Ok tt,
     (script config_file w tr).2
     ++ [Entry (logging ERROR ("Could not retrieve CampusOffice calendar: "
                               +:+ exn_str e)) Returned]).
Proof.
  intros Hraise Hclass. unfold main, try_except.
  destruct (script config_file w tr) as [r out]. simpl in Hraise. subst r.
  destruct e as [c msg]. destruct c; try discriminate Hclass; reflexivity.
Qed.

(** The export times out. *)
Lemma source_errors_reported_witness :
  main ["cacaluploader.py"; "uploader.cfg"] Sample.export_down []
  = (Ok tt,
     (script "uploader.cfg" Sample.export_down []).2
     ++ [Entry (logging ERROR ("Could not retrieve CampusOffice calendar: "
                               +:+ "Read timed out")) Returned]).
Proof.
  apply (source_errors_reported "cacaluploader.py" "uploader.cfg" Sample.export_down []
           (Exn requests_Timeout "Read timed out")); reflexivity.
Defined.
